(** * Walker: a shallow embedding of the fetcher, the configuration loader
      and the dispatcher's empty-segment policy

    The Go sources embedded here are [fetcher.go], [config.go] and the
    mock server of [mocks.go], of package [walker].  Calls into other
    packages ([net/url], [net/http], [robotstxt], [html], [charset],
    [publicsuffix], [yaml], [time], [ioutil]) are taken as parameters
    gathered in a record, so that every definition below can be run on a
    concrete instance of them.  The dispatcher, whose source is not at
    hand, is modelled from its description.

    The definitions come first, one module per source file, each followed
    by a small instance to run it on; the properties follow. *)

From Stdlib Require Import ZArith QArith Qround String Ascii List Bool Lia.
From Stdlib Require Import Floats.SpecFloat.
From stdpp Require Import base option list sorting gmap strings pretty.

Local Open Scope string_scope.
Local Open Scope list_scope.
Local Open Scope Z_scope.

(** ** Go values shared by the packages *)

Module Go.

(** The Go [error] interface: [None] is [nil], [Some msg] an error whose
    [Error()] is [msg]. *)
Definition error : Type := option string.

(** A [(value, error)] pair as the library functions used here return it:
    either the value and a nil error, or a nil value and the error. *)
Inductive result (A : Type) : Type :=
| Ok (a : A)
| Err (msg : string).
Arguments Ok {A} a.
Arguments Err {A} msg.

(** How a call into code the caller does not know ends: it returns, or
    it panics. *)
Inductive attempt (A : Type) : Type :=
| Done (a : A)
| Panicked (msg : string).
Arguments Done {A} a.
Arguments Panicked {A} msg.

Definition ptr_of {A} (r : result A) : option A :=
  match r with Ok a => Some a | Err _ => None end.

Definition err_of {A} (r : result A) : error :=
  match r with Ok _ => None | Err msg => Some msg end.

(** [int] and [int64] are 64 bits wide; [time.Duration] is an [int64]
    count of nanoseconds. *)
Definition wrap64 (z : Z) : Z := (z + 2 ^ 63) mod 2 ^ 64 - 2 ^ 63.

Definition Duration : Type := Z.
Definition Nanosecond : Duration := 1.
Definition Microsecond : Duration := 1000 * Nanosecond.
Definition Millisecond : Duration := 1000 * Microsecond.
Definition Second : Duration := 1000 * Millisecond.
Definition Minute : Duration := 60 * Second.
Definition Hour : Duration := 60 * Minute.

(** [time.Time] as seconds since January 1, year 1 and nanoseconds; the
    zero value is [{| sec := 0; nsec := 0 |}]. *)
Record Time : Type := mkTime { sec : Z; nsec : Z }.

Definition zeroTime : Time := mkTime 0 0.
Definition unixToInternal : Z := (1969 * 365 + 1969 / 4 - 1969 / 100 + 1969 / 400) * 86400.
Definition time_Unix (s ns : Z) : Time := mkTime (s + unixToInternal) ns.

Definition byte : Type := Ascii.ascii.

(** [strings.HasPrefix] *)
Definition HasPrefix (s p : string) : bool := String.prefix p s.

End Go.
Export Go.

(** ** Package [walker], file fetcher.go *)

Module Walker.

(** [url.URL] of net/url. *)
Record url_URL : Type := mk_url {
  Scheme : string;
  Opaque : string;
  User : option string;
  Host : string;
  Path : string;
  RawQuery : string;
  Fragment : string
}.

Definition set_Scheme (s : string) (u : url_URL) : url_URL :=
  mk_url s (Opaque u) (User u) (Host u) (Path u) (RawQuery u) (Fragment u).
Definition set_Host (h : string) (u : url_URL) : url_URL :=
  mk_url (Scheme u) (Opaque u) (User u) h (Path u) (RawQuery u) (Fragment u).

(** [NotYetCrawled], set by [init] to [time.Unix(0, 0)]. *)
Definition NotYetCrawled : Time := time_Unix 0 0.

(** [type URL struct { *url.URL; LastCrawled time.Time }]: the embedded
    pointer may be nil. *)
Record URL : Type := mkURL {
  URL_ : option url_URL;
  LastCrawled : Time
}.

(** [http.Response], with the parts the fetcher looks at.  The body is a
    stream: the bytes still to be read and the error the read ends with
    (nil at a clean end of file). *)
Record Body : Type := mkBody { unread : list byte; read_err : error }.

Record Response : Type := mkResponse {
  Status : string;
  Header : gmap string (list string);
  RespBody : Body
}.

Definition set_Body (b : Body) (r : Response) : Response :=
  mkResponse (Status r) (Header r) b.

(** [ioutil.ReadAll]: everything up to the end of the stream, and the
    error met, if any; the stream is left drained. *)
Definition ioutil_ReadAll (b : Body) : list byte * error * Body :=
  (unread b, read_err b, mkBody [] (read_err b)).

(** [ioutil.NopCloser(bytes.NewReader(body))] *)
Definition bytes_NewReader (body : list byte) : Body := mkBody body None.

(** [http.Request] as built by [fetcher.fetch]. *)
Record Request : Type := mkRequest {
  Method : string;
  ReqURL : url_URL;
  ReqHeader : gmap string (list string)
}.

(** [robotstxt.Group]: its crawl delay and its [Test] method. *)
Record Group : Type := mkGroup {
  CrawlDelay : Duration;
  Test : string -> bool
}.

(** Tokens of [html.Tokenizer].  [ErrorToken] is what [Next] answers at
    the end of the stream, so a stream is a list of the other tokens. *)
Inductive TokenType : Type :=
| TextToken | StartTagToken | EndTagToken | SelfClosingTagToken
| CommentToken | DoctypeToken.

Record Token : Type := mkToken {
  tok_type : TokenType;
  tok_name : string;
  tok_attr : list (string * string)
}.

(** The functions of other packages that fetcher.go calls. *)
Record Library : Type := mkLibrary {
  (** [url.Parse] *)
  url_Parse : string -> result url_URL;
  (** the [String] method of [url.URL] *)
  url_String : url_URL -> string;
  (** [robotstxt.FromResponse] *)
  robotstxt_FromResponse : Response -> result (string -> option Group);
  (** [charset.NewReader(bytes.NewReader(contents), "text/html")]: the
      decoded bytes *)
  charset_NewReader : list byte -> result (list byte);
  (** the tokens [html.NewTokenizer] reads off a decoded stream *)
  html_tokens : list byte -> list Token
}.

(** The values of [Config] that fetcher.go mentions.  It converts
    [DefaultCrawlDelay] with [time.Duration(...) * time.Second], so the
    field is an [int] of seconds; [MaxHTTPContentSizeBytes] appears in a
    comment only. *)
Record FetcherConfig : Type := mkFetcherConfig {
  UserAgent : string;
  IgnoreTags : list string;
  DefaultCrawlDelay : Z;
  MaxHTTPContentSizeBytes : Z
}.

(** [FetchResults] *)
Record FetchResults : Type := mkFetchResults {
  fr_URL : URL;
  fr_Response : option Response;
  FetchError : error;
  FetchTime : Time;
  ExcludedByRobots : bool
}.

Definition set_ExcludedByRobots (b : bool) (fr : FetchResults) : FetchResults :=
  mkFetchResults (fr_URL fr) (fr_Response fr) (FetchError fr) (FetchTime fr) b.
Definition set_FetchTime (t : Time) (fr : FetchResults) : FetchResults :=
  mkFetchResults (fr_URL fr) (fr_Response fr) (FetchError fr) t (ExcludedByRobots fr).
Definition set_Response (r : option Response) (fr : FetchResults) : FetchResults :=
  mkFetchResults (fr_URL fr) r (FetchError fr) (FetchTime fr) (ExcludedByRobots fr).
Definition set_FetchError (e : error) (fr : FetchResults) : FetchResults :=
  mkFetchResults (fr_URL fr) (fr_Response fr) e (FetchTime fr) (ExcludedByRobots fr).

(** *** Effects

    What a fetcher does to the world, in program order: the calls on
    [fm.Datastore], [fm.Handler] and the HTTP client, the sleeps, and the
    channel operations.  Calls that take a [*FetchResults] are recorded
    with the value it points to at the call.  The methods of the
    datastore that return nothing are taken to return and to leave what
    they are given as it is, as [MockDatastore] of mocks.go does; the
    handler is asked, since it is given the pointer the fetcher goes on
    with, and [MockHandler] of mocks.go writes through it and can
    panic. *)
Inductive Event : Type :=
| EvUnclaimHost (host : string)
| EvPollQuit (received : bool)
| EvDone
| EvClaimNewHost (host : string)
| EvSleep (d : Duration)
| EvLinksForHost (host : string)
| EvHttpDo (req : Request)
| EvStoreURLFetchResults (fr : FetchResults)
| EvStoreParsedURL (u : URL) (fr : FetchResults)
| EvHandleResponse (fr : FetchResults).

(** What the world answers.  Every answer may depend on the instant of
    the call, counted as the number of events before it. *)
Record World : Type := mkWorld {
  (** [fm.Datastore.ClaimNewHost()] *)
  ClaimNewHost : nat -> string;
  (** the links read off the channel of [fm.Datastore.LinksForHost(host)] *)
  LinksForHost : nat -> string -> list URL;
  (** [f.httpclient.Do(req)] *)
  http_Do : nat -> Request -> result Response;
  (** whether [stop] is blocked sending on [f.quit] *)
  quit_signaled : nat -> bool;
  (** [time.Now()] *)
  time_Now : nat -> Time;
  (** [fm.Handler.HandleResponse(fr)]: the value it leaves in [*fr] when
      it returns, or the value it panics with *)
  Handler_HandleResponse : nat -> FetchResults -> attempt FetchResults
}.

(** How a computation ends: with a value, in a run-time panic, or not
    within the iterations allowed to the outer loop. *)
Inductive outcome (A : Type) : Type :=
| Val (a : A)
| Panic (msg : string)
| OutOfFuel.
Arguments Val {A} a.
Arguments Panic {A} msg.
Arguments OutOfFuel {A}.

(** A computation started at instant [now] ends in an outcome and has
    emitted a list of events. *)
Definition M (A : Type) : Type := nat -> outcome A * list Event.

#[export] Instance M_ret : MRet M := fun A a _ => (Val a, []).

#[export] Instance M_bind : MBind M := fun A B k m now =>
  match m now with
  | (Val a, evs) =>
      let (o, evs') := k a (length evs + now)%nat in (o, evs ++ evs')
  | (Panic msg, evs) => (Panic msg, evs)
  | (OutOfFuel, evs) => (OutOfFuel, evs)
  end.

Definition emit (e : Event) : M unit := fun _ => (Val (), [e]).
Definition call {A} (answer : nat -> A) (e : A -> Event) : M A :=
  fun now => (Val (answer now), [e (answer now)]).
Definition observe {A} (answer : nat -> A) : M A :=
  fun now => (Val (answer now), []).
Definition panic {A} (msg : string) : M A := fun _ => (Panic msg, []).
Definition out_of_fuel {A} : M A := fun _ => (OutOfFuel, []).

(** The fields of [fetcher] that [start] assigns. *)
Record fetcher : Type := mkFetcher {
  host : string;
  robots : option Group;
  crawldelay : Duration
}.

Section Fetcher.

Variable lib : Library.
Variable Config : FetcherConfig.

(** [ParseURL]; the result is [&URL{...}], a pointer that [CreateURL]
    can return nil in its place, hence the [option]. *)
Definition ParseURL (ref : string) : option URL * error :=
  let r := url_Parse lib ref in
  (Some (mkURL (ptr_of r) NotYetCrawled), err_of r).

(** [getIncludedTags] *)
Definition getIncludedTags : gmap string bool :=
  let tags : gmap string bool :=
    <["a" := true]> (<["area" := true]> (<["form" := true]>
    (<["frame" := true]> (<["iframe" := true]> (<["script" := true]>
    (<["link" := true]> (<["img" := true]> ∅))))))) in
  foldl (fun tags t => delete t tags) tags (IgnoreTags Config).

(** [parseAnchorAttrs].  [attrs] are the attributes [TagAttr] has not
    yet returned; on an exhausted tag [TagAttr] answers
    [(nil, nil, false)]. *)
Fixpoint parseAnchorAttrs (attrs : list (string * string)) (links : list URL)
  : list URL :=
  match attrs with
  | [] => links
  | (key, val) :: rest =>
      let links :=
        if String.eqb key "href" then
          match ParseURL val with
          | (Some u, None) => links ++ [u]
          | _ => links
          end
        else links in
      match rest with
      | [] => links
      | _ :: _ => parseAnchorAttrs rest links
      end
  end.

(** The token loop of [getLinks]. *)
Fixpoint getLinks_loop (tags : gmap string bool) (toks : list Token)
  (links : list URL) : list URL :=
  match toks with
  | [] => links
  | t :: toks =>
      match tok_type t with
      | StartTagToken =>
          let hasAttrs := negb (bool_decide (tok_attr t = [])) in
          if hasAttrs && default false (tags !! tok_name t)
          then getLinks_loop tags toks (parseAnchorAttrs (tok_attr t) links)
          else getLinks_loop tags toks links
      | _ => getLinks_loop tags toks links
      end
  end.

(** [getLinks] *)
Definition getLinks (contents : list byte) : list URL * error :=
  match charset_NewReader lib contents with
  | Err e => ([], Some e)
  | Ok utf8Reader =>
      (getLinks_loop getIncludedTags (html_tokens lib utf8Reader) [], None)
  end.

(** [isHTML] *)
Definition isHTML (r : option Response) : bool :=
  match r with
  | None => false
  | Some r =>
      existsb (fun ct => HasPrefix ct "text/html")
              (default [] (Header r !! "Content-Type"))
  end.

Variable world : World.

(** Selecting a field of the embedded [*url.URL], or calling one of its
    methods, panics on a nil pointer. *)
Definition deref (u : URL) : M url_URL :=
  match URL_ u with
  | Some x => mret x
  | None => panic "invalid memory address or nil pointer dereference"
  end.

Definition URL_String (u : URL) : M string :=
  x ← deref u; mret (url_String lib x).

(** [http.NewRequest(method, urlStr, nil)] parses [urlStr] with
    [url.Parse]. *)
Definition http_NewRequest (method urlStr : string) : result Request :=
  match url_Parse lib urlStr with
  | Ok u => Ok (mkRequest method u ∅)
  | Err e => Err e
  end.

Definition Header_Set (key value : string) (req : Request) : Request :=
  mkRequest (Method req) (ReqURL req) (<[key := [value]]> (ReqHeader req)).

(** [fetcher.fetch] *)
Definition fetch (u : URL) : M (result Response) :=
  s ← URL_String u;
  match http_NewRequest "GET" s with
  | Err err =>
      mret (Err ("Failed to create new request object for " +:+ s
                 +:+ "): " +:+ err))
  | Ok req =>
      let req := Header_Set "User-Agent" (UserAgent Config) req in
      call (fun now => http_Do world now req) (fun _ => EvHttpDo req)
  end.

(** The URL [fetchRobots] builds for a host. *)
Definition robots_url (host : string) : URL :=
  mkURL (Some (mk_url "http" "" None host "robots.txt" "" "")) zeroTime.

(** [fetcher.fetchRobots]; the result is the new value of [f.robots]. *)
Definition fetchRobots (host : string) : M (option Group) :=
  let u := robots_url host in
  res ← fetch u;
  match res with
  | Err _ => mret None
  | Ok res =>
      match robotstxt_FromResponse lib res with
      | Err _ => mret None
      | Ok FindGroup => mret (FindGroup (UserAgent Config))
      end
  end.

(** The crawl delay [start] assigns to [f.crawldelay] for a host:
    lines 169 to 172. *)
Definition crawldelay_for (robots : option Group) : Duration :=
  let crawldelay := wrap64 (DefaultCrawlDelay Config * Second) in
  match robots with
  | Some g =>
      if DefaultCrawlDelay Config <? CrawlDelay g
      then CrawlDelay g else crawldelay
  | None => crawldelay
  end.

(** The body of the loop over [outlinks]. *)
Definition store_outlink (link : URL) (fr : FetchResults) (outlink : URL)
  : M unit :=
  o ← deref outlink;
  o ← (if String.eqb (Scheme o) ""
       then l ← deref link; mret (set_Scheme (Scheme l) o)
       else mret o);
  o ← (if String.eqb (Host o) ""
       then l ← deref link; mret (set_Host (Host l) o)
       else mret o);
  emit (EvStoreParsedURL (mkURL (Some o) (LastCrawled outlink)) fr).

Fixpoint store_outlinks (link : URL) (fr : FetchResults)
  (outlinks : list URL) : M unit :=
  match outlinks with
  | [] => mret ()
  | outlink :: outlinks =>
      store_outlink link fr outlink;; store_outlinks link fr outlinks
  end.

(** [f.fm.Handler.HandleResponse(fr)]; the result is [*fr] as the
    handler leaves it. *)
Definition HandleResponse (fr : FetchResults) : M FetchResults := fun now =>
  match Handler_HandleResponse world now fr with
  | Done fr' => (Val fr', [EvHandleResponse fr])
  | Panicked msg => (Panic msg, [EvHandleResponse fr])
  end.

(** Lines 232 to 234. *)
Definition handle_and_store (fr : FetchResults) : M unit :=
  fr ← HandleResponse fr;
  emit (EvStoreURLFetchResults fr).

(** What the loop body does once [f.fetch] has returned a response and
    no error: lines 190 and 197 to 234. *)
Definition process_response (link : URL) (fr : FetchResults)
  (resp : Response) : M unit :=
  let fr := set_Response (Some resp) fr in
  if isHTML (fr_Response fr) then
    let '(body, err, drained) := ioutil_ReadAll (RespBody resp) in
    let fr := set_FetchError err
                (set_Response (Some (set_Body drained resp)) fr) in
    match err with
    | Some _ => emit (EvStoreURLFetchResults fr)
    | None =>
        let fr := set_Response
                    (Some (set_Body (bytes_NewReader body) resp)) fr in
        match getLinks body with
        | (_, Some _) => mret ()
        | (outlinks, None) => store_outlinks link fr outlinks
        end;;
        handle_and_store fr
    end
  else handle_and_store fr.

(** The loop body for a link that robots.txt does not exclude: lines
    187 to 234.  [fr] is [&FetchResults{URL: link}]. *)
Definition fetch_and_process (f : fetcher) (link : URL) (fr : FetchResults)
  : M unit :=
  emit (EvSleep (crawldelay f));;
  now ← observe (time_Now world);
  let fr := set_FetchTime now fr in
  res ← fetch link;
  match res with
  | Err err => emit (EvStoreURLFetchResults (set_FetchError (Some err) fr))
  | Ok resp => process_response link fr resp
  end.

(** The body of the loop over [LinksForHost]: lines 177 to 234. *)
Definition process_link (f : fetcher) (link : URL) : M unit :=
  let fr := mkFetchResults link None None zeroTime false in
  excluded ← match robots f with
             | None => mret false
             | Some g => s ← URL_String link; mret (negb (Test g s))
             end;
  if excluded : bool then
    emit (EvStoreURLFetchResults (set_ExcludedByRobots true fr))
  else fetch_and_process f link fr.

(** [for link := range f.fm.Datastore.LinksForHost(f.host)] *)
Fixpoint crawl_links (f : fetcher) (links : list URL) : M unit :=
  match links with
  | [] => mret ()
  | link :: links => process_link f link;; crawl_links f links
  end.

(** One claimed host: lines 168 to 236. *)
Definition crawl_host (h : string) : M fetcher :=
  robots ← fetchRobots h;
  let f := mkFetcher h robots (crawldelay_for robots) in
  links ← call (fun now => LinksForHost world now h)
               (fun _ => EvLinksForHost h);
  crawl_links f links;;
  mret f.

(** [fetcher.start]; [fuel] bounds the iterations of the outer loop. *)
Fixpoint start (fuel : nat) (f : fetcher) : M unit :=
  match fuel with
  | O => out_of_fuel
  | S fuel =>
      (if bool_decide (host f = "") then mret ()
       else emit (EvUnclaimHost (host f)));;
      quit ← call (quit_signaled world) EvPollQuit;
      if quit : bool then emit EvDone
      else
        h ← call (ClaimNewHost world) EvClaimNewHost;
        if bool_decide (h = "") then
          emit (EvSleep Second);;
          start fuel (mkFetcher h (robots f) (crawldelay f))
        else
          f ← crawl_host h;
          start fuel f
  end.

(** *** What the fetcher is expected to do, in the words of its
    description *)

(** The crawl delay: the larger of the robots delay and the default
    one, then capped. *)
Definition described_crawl_delay (robots_delay default_delay max_delay : Duration)
  : Duration :=
  Z.min (Z.max robots_delay default_delay) max_delay.

Definition robots_delay (robots : option Group) : Duration :=
  match robots with Some g => CrawlDelay g | None => 0 end.

(** An outlink takes the scheme, then the host, of the referring URL
    where its own is empty. *)
Definition inherit (l o : url_URL) : url_URL :=
  let o := if String.eqb (Scheme o) "" then set_Scheme (Scheme l) o else o in
  if String.eqb (Host o) "" then set_Host (Host l) o else o.

Definition inherited (l : url_URL) (outlink : URL) : URL :=
  mkURL (inherit l <$> URL_ outlink) (LastCrawled outlink).


(** The calls of [StoreParsedURL] and of [HandleResponse] among some
    events, in order. *)
Definition stored_outlinks (evs : list Event) : list (URL * FetchResults) :=
  omap (fun e => match e with
                 | EvStoreParsedURL u fr => Some (u, fr)
                 | _ => None
                 end) evs.

Definition handled (evs : list Event) : list FetchResults :=
  omap (fun e => match e with
                 | EvHandleResponse fr => Some fr
                 | _ => None
                 end) evs.

(** The response as the handler and the datastore get it when the page
    was read as HTML: its body replaced by a reader over [body]. *)
Definition buffered (link : URL) (fetched : Time) (resp : Response)
  (body : list byte) : FetchResults :=
  mkFetchResults link (Some (set_Body (bytes_NewReader body) resp)) None
                 fetched false.

(** The events the loop over the links of a host may emit, for a
    fetcher in state [f]. *)
Definition link_event (f : fetcher) (e : Event) : Prop :=
  match e with
  | EvSleep d => d = crawldelay f
  | EvHttpDo _ | EvStoreURLFetchResults _ | EvStoreParsedURL _ _
  | EvHandleResponse _ => True
  | _ => False
  end.

(** The fetcher sleeps [d] right before each request, and sleeps no
    other delay: among some events, every request comes next after a
    sleep of [d], and every sleep is one of [d]. *)
Definition sleeps_before_each_request (d : Duration) (evs : list Event)
  : Prop :=
  (forall i req, evs !! i = Some (EvHttpDo req) ->
     exists j, i = S j /\ evs !! j = Some (EvSleep d)) /\
  (forall d', EvSleep d' ∈ evs -> d' = d).


(** An event that is neither a sleep nor a request. *)
Definition quiet (e : Event) : Prop :=
  match e with
  | EvSleep _ | EvHttpDo _ => False
  | _ => True
  end.


(** *** What link extraction is expected to return

    The start tags looked at, and the references taken from one token,
    stated without the tokenizer's cursor. *)
Definition default_tags : list string :=
  ["a"; "area"; "form"; "frame"; "iframe"; "script"; "link"; "img"].

Definition considered (t : Token) : bool :=
  match tok_type t with
  | StartTagToken =>
      bool_decide (tok_name t ∈ default_tags)
      && negb (bool_decide (tok_name t ∈ IgnoreTags Config))
  | _ => false
  end.

Definition parsed_href (attr : string * string) : option URL :=
  if String.eqb attr.1 "href" then
    match url_Parse lib attr.2 with
    | Ok u => Some (mkURL (Some u) NotYetCrawled)
    | Err _ => None
    end
  else None.

Definition hrefs_of_token (t : Token) : list URL :=
  if considered t then omap parsed_href (tok_attr t) else [].

Definition document_hrefs (toks : list Token) : list URL :=
  concat (map hrefs_of_token toks).

End Fetcher.

(** Running a computation whose steps are known. *)
Ltac run :=
  unfold mbind, M_bind, mret, M_ret, emit, call, observe, panic; simpl.

End Walker.

(** ** A small world to run the fetcher in *)

Module Example.
Import Walker.

Definition bytes (s : string) : list byte := list_ascii_of_string s.
Definition text (b : list byte) : string := string_of_list_ascii b.

Definition contains (sub s : string) : bool :=
  match String.index 0 sub s with Some _ => true | None => false end.

Definition after (n : nat) (s : string) : string :=
  String.substring n (String.length s - n) s.

(** A fragment of [url.Parse]: [scheme://host/path], a path alone, and
    the error for a reference that starts with a colon. *)
Definition url_Parse (s : string) : result url_URL :=
  if String.prefix ":" s then
    Err ("parse " +:+ s +:+ ": missing protocol scheme")
  else
    match String.index 0 "://" s with
    | Some i =>
        let rest := after (i + 3) s in
        match String.index 0 "/" rest with
        | Some j =>
            Ok (mk_url (String.substring 0 i s) "" None
                       (String.substring 0 j rest) (after j rest) "" "")
        | None => Ok (mk_url (String.substring 0 i s) "" None rest "" "" "")
        end
    | None => Ok (mk_url "" "" None "" s "" "")
    end.

(** The matching fragment of the [String] method. *)
Definition url_String (u : url_URL) : string :=
  (if String.eqb (Scheme u) "" then "" else Scheme u +:+ ":")
  +:+ (if String.eqb (Host u) "" then ""
       else "//" +:+ Host u
            +:+ (if String.eqb (Path u) "" || String.prefix "/" (Path u)
                 then "" else "/"))
  +:+ Path u.

Definition everything : Group := mkGroup 0 (fun _ => true).
Definition nothing_private : Group :=
  mkGroup 0 (fun s => negb (contains "/private/" s)).
Definition ten_minutes : Group := mkGroup (10 * Minute) (fun _ => true).
Definition half_a_second : Group := mkGroup (500 * Millisecond) (fun _ => true).

(** [robotstxt.FromResponse] on the three files served below. *)
Definition robotstxt_FromResponse (res : Response)
  : result (string -> option Group) :=
  let body := text (unread (RespBody res)) in
  if String.eqb body "" then Ok (fun _ => Some everything)
  else if String.eqb body "Disallow: /private/" then
    Ok (fun _ => Some nothing_private)
  else if String.eqb body "Crawl-delay: 600" then
    Ok (fun _ => Some ten_minutes)
  else Err "robots.txt: unexpected line".

(** [charset.NewReader] fails on an empty input, with [io.EOF]. *)
Definition charset_NewReader (contents : list byte) : result (list byte) :=
  match contents with
  | [] => Err "EOF"
  | _ :: _ => Ok contents
  end.

Definition home_page : string :=
  "<a href=/next>next</a><a name=top href=http://other.org/>other</a>"
  +:+ "<img href=/logo.png><a href=:bad></a>".

Definition home_tokens : list Token :=
  [ mkToken StartTagToken "a" [("href", "/next")];
    mkToken TextToken "" [];
    mkToken EndTagToken "a" [];
    mkToken StartTagToken "a" [("name", "top"); ("href", "http://other.org/")];
    mkToken TextToken "" [];
    mkToken EndTagToken "a" [];
    mkToken StartTagToken "img" [("href", "/logo.png")];
    mkToken StartTagToken "a" [("href", ":bad")];
    mkToken EndTagToken "a" [] ].

(** The tokens of the page above; any other document is read as text. *)
Definition html_tokens (doc : list byte) : list Token :=
  if String.eqb (text doc) home_page then home_tokens
  else [mkToken TextToken "" []].

Definition lib : Library :=
  mkLibrary url_Parse url_String robotstxt_FromResponse charset_NewReader
            html_tokens.

(** The default configuration, as [DefaultCrawlDelay] was when it was a
    number of seconds. *)
Definition config : FetcherConfig :=
  mkFetcherConfig "Walker (http://github.com/iParadigms/walker)"
                  ["script"; "img"; "link"] 1 (20 * 1024 * 1024).

Definition small_cap : FetcherConfig :=
  mkFetcherConfig (UserAgent config) (IgnoreTags config) 1 16.

(** [MaxCrawlDelay], by default [5m]. *)
Definition MaxCrawlDelay : Duration := 5 * Minute.

Definition respond (content_type body : string) : Response :=
  mkResponse "200 OK" {[ "Content-Type" := [content_type] ]}
             (mkBody (bytes body) None).

(** A server for test.com. *)
Definition serve (robots_txt : string) (req : Request) : result Response :=
  let u := url_String (ReqURL req) in
  if String.eqb u "http://test.com/robots.txt" then
    Ok (respond "text/plain" robots_txt)
  else if String.eqb u "http://test.com/" then Ok (respond "text/html" home_page)
  else if String.eqb u "http://test.com/next" then
    Ok (respond "text/plain" "plain text")
  else Err "dial tcp: lookup failed".

Definition link (s : string) : URL := mkURL (ptr_of (url_Parse s)) NotYetCrawled.

Definition segment : list URL :=
  [link "http://test.com/"; link "http://test.com/private/y";
   link "http://test.com/next"].

(** A handler that looks at the result and leaves it as it is. *)
Definition onlooker (_ : nat) (fr : FetchResults) : attempt FetchResults :=
  Done fr.

(** test.com is dispatched once; [stop] is called while the first link of
    its segment is being fetched. *)
Definition world (robots_txt : string) : World :=
  mkWorld (fun now => if (now <? 2)%nat then "test.com" else "")
          (fun _ h => if String.eqb h "test.com" then segment else [])
          (fun _ => serve robots_txt)
          (fun now => (5 <=? now)%nat)
          (fun now => time_Unix (1400000000 + Z.of_nat now) 0)
          onlooker.

(** A world where [stop] is, or is not, blocked on [f.quit] as [quit]
    says, and else the same. *)
Definition with_quit (quit : nat -> bool) (w : World) : World :=
  mkWorld (ClaimNewHost w) (LinksForHost w) (http_Do w) quit (time_Now w)
          (Handler_HandleResponse w).

(** The same, with a server that is down. *)
Definition offline : World :=
  mkWorld (ClaimNewHost (world "")) (LinksForHost (world ""))
          (fun _ _ => Err "dial tcp: connection refused")
          (quit_signaled (world "")) (time_Now (world "")) onlooker.

Definition idle : fetcher := mkFetcher "" None 0.

(** The first link of the segment, and the instant its fetch starts at. *)
Definition home : URL := link "http://test.com/".
Definition home_url : url_URL := mk_url "http" "" None "test.com" "/" "" "".
Definition fetched : Time := time_Unix 1400000005 0.

(** A fetcher on test.com under the rules of [nothing_private], and a
    link these rules exclude. *)
Definition guarded : fetcher :=
  mkFetcher "test.com" (Some nothing_private) Second.
Definition private : URL := link "http://test.com/private/y".

(** Events in short, to read a run. *)
Definition show (u : URL) : string :=
  match URL_ u with Some x => url_String x | None => "<nil>" end.

Definition describe (e : Event) : string :=
  match e with
  | EvUnclaimHost h => "UnclaimHost " +:+ h
  | EvPollQuit received => if received then "quit: received" else "quit: none"
  | EvDone => "done"
  | EvClaimNewHost h => "ClaimNewHost: " +:+ h
  | EvSleep _ => "Sleep"
  | EvLinksForHost h => "LinksForHost " +:+ h
  | EvHttpDo req => Method req +:+ " " +:+ url_String (ReqURL req)
  | EvStoreURLFetchResults fr =>
      (if ExcludedByRobots fr then "StoreURLFetchResults (excluded) "
       else "StoreURLFetchResults ") +:+ show (fr_URL fr)
  | EvStoreParsedURL u _ => "StoreParsedURL " +:+ show u
  | EvHandleResponse fr => "HandleResponse " +:+ show (fr_URL fr)
  end.

End Example.

(** ** Package [walker], file config.go *)

Module ConfigFile.

(** [float64], with its comparisons: IEEE 754 binary64. *)
Definition float64 : Type := spec_float.

Definition float64_of_Z (z : Z) : float64 :=
  match z with
  | Z0 => S754_zero false
  | Zpos p => binary_round 53 1024 false p 0
  | Zneg p => binary_round 53 1024 true p 0
  end.

Record DispatcherConfig : Type := mkDispatcherConfig {
  MaxLinksPerSegment : Z;
  RefreshPercentage : float64;
  NumConcurrentDomains : Z;
  MinLinkRefreshTime : string
}.

Record CassandraConfig : Type := mkCassandraConfig {
  Hosts : list string;
  Keyspace : string;
  ReplicationFactor : Z;
  Timeout : string;
  CQLVersion : string;
  ProtoVersion : Z;
  Cassandra_Port : Z;
  NumConns : Z;
  NumStreams : Z;
  DiscoverHosts : bool;
  MaxPreparedStmts : Z
}.

Record ConsoleConfig : Type := mkConsoleConfig {
  Console_Port : Z;
  TemplateDirectory : string;
  PublicFolder : string
}.

(** [WalkerConfig] *)
Record WalkerConfig : Type := mkWalkerConfig {
  AddNewDomains : bool;
  AddedDomainsCacheSize : Z;
  MaxDNSCacheEntries : Z;
  UserAgent : string;
  AcceptFormats : list string;
  AcceptProtocols : list string;
  MaxHTTPContentSizeBytes : Z;
  IgnoreTags : list string;
  MaxLinksPerPage : Z;
  NumSimultaneousFetchers : Z;
  BlacklistPrivateIPs : bool;
  HttpTimeout : string;
  HonorMetaNoindex : bool;
  HonorMetaNofollow : bool;
  ExcludeLinkPatterns : list string;
  IncludeLinkPatterns : list string;
  DefaultCrawlDelay : string;
  MaxCrawlDelay : string;
  PurgeSidList : list string;
  Dispatcher : DispatcherConfig;
  Cassandra : CassandraConfig;
  Console : ConsoleConfig
}.

(** [SetDefaultConfig] assigns every field of [Config]: this is [Config]
    after the call, whatever it was before. *)
Definition SetDefaultConfig : WalkerConfig :=
  {| AddNewDomains := false;
     AddedDomainsCacheSize := 20000;
     MaxDNSCacheEntries := 20000;
     UserAgent := "Walker (http://github.com/iParadigms/walker)";
     AcceptFormats := ["text/html"; "text/*;"];
     AcceptProtocols := ["http"; "https"];
     MaxHTTPContentSizeBytes := 20 * 1024 * 1024;
     IgnoreTags := ["script"; "img"; "link"];
     MaxLinksPerPage := 1000;
     NumSimultaneousFetchers := 10;
     BlacklistPrivateIPs := true;
     HttpTimeout := "30s";
     HonorMetaNoindex := true;
     HonorMetaNofollow := false;
     ExcludeLinkPatterns := [];
     IncludeLinkPatterns := [];
     DefaultCrawlDelay := "1s";
     MaxCrawlDelay := "5m";
     PurgeSidList := [];
     Dispatcher :=
       {| MaxLinksPerSegment := 500;
          RefreshPercentage := float64_of_Z 25;
          NumConcurrentDomains := 1;
          MinLinkRefreshTime := "0s" |};
     Cassandra :=
       {| Hosts := ["localhost"];
          Keyspace := "walker";
          ReplicationFactor := 3;
          Timeout := "2s";
          CQLVersion := "3.0.0";
          ProtoVersion := 2;
          Cassandra_Port := 9042;
          NumConns := 2;
          NumStreams := 128;
          DiscoverHosts := false;
          MaxPreparedStmts := 1000 |};
     Console :=
       {| Console_Port := 3000;
          TemplateDirectory := "console/templates";
          PublicFolder := "console/public" |} |}.

(** Assignments to the five sequence fields that [readConfig] resets and
    refills. *)
Definition set_sequences
  (formats protocols tags hosts sids : list string) (c : WalkerConfig)
  : WalkerConfig :=
  {| AddNewDomains := AddNewDomains c;
     AddedDomainsCacheSize := AddedDomainsCacheSize c;
     MaxDNSCacheEntries := MaxDNSCacheEntries c;
     UserAgent := UserAgent c;
     AcceptFormats := formats;
     AcceptProtocols := protocols;
     MaxHTTPContentSizeBytes := MaxHTTPContentSizeBytes c;
     IgnoreTags := tags;
     MaxLinksPerPage := MaxLinksPerPage c;
     NumSimultaneousFetchers := NumSimultaneousFetchers c;
     BlacklistPrivateIPs := BlacklistPrivateIPs c;
     HttpTimeout := HttpTimeout c;
     HonorMetaNoindex := HonorMetaNoindex c;
     HonorMetaNofollow := HonorMetaNofollow c;
     ExcludeLinkPatterns := ExcludeLinkPatterns c;
     IncludeLinkPatterns := IncludeLinkPatterns c;
     DefaultCrawlDelay := DefaultCrawlDelay c;
     MaxCrawlDelay := MaxCrawlDelay c;
     PurgeSidList := sids;
     Dispatcher := Dispatcher c;
     Cassandra :=
       {| Hosts := hosts;
          Keyspace := Keyspace (Cassandra c);
          ReplicationFactor := ReplicationFactor (Cassandra c);
          Timeout := Timeout (Cassandra c);
          CQLVersion := CQLVersion (Cassandra c);
          ProtoVersion := ProtoVersion (Cassandra c);
          Cassandra_Port := Cassandra_Port (Cassandra c);
          NumConns := NumConns (Cassandra c);
          NumStreams := NumStreams (Cassandra c);
          DiscoverHosts := DiscoverHosts (Cassandra c);
          MaxPreparedStmts := MaxPreparedStmts (Cassandra c) |};
     Console := Console c |}.

(** What config.go calls outside itself: [ioutil.ReadFile],
    [yaml.Unmarshal] into [&Config], [time.ParseDuration], and the two
    functions of package [walker] defined in another file,
    [aggregateRegex] (whose compiled expression config.go discards) and
    [setupParseURL]. *)
Record System : Type := mkSystem {
  ioutil_ReadFile : string -> result string;
  yaml_Unmarshal : string -> WalkerConfig -> WalkerConfig * error;
  time_ParseDuration : string -> result Duration;
  aggregateRegex : list string -> string -> error;
  setupParseURL : WalkerConfig -> error
}.

(** The duration [time.ParseDuration] returns: zero along with an error. *)
Definition duration {A} (zero : A) (r : result A) : A :=
  match r with Ok d => d | Err _ => zero end.

Definition tab : string := String (ascii_of_nat 9) "".
Definition newline : string := String (ascii_of_nat 10) "".

(** How a call ends: it returns its error, or panics. *)
Inductive ending : Type :=
| Returns (err : error)
| Panics (msg : string).

Section Config.

Variable sys : System.

(** [errs = append(errs, msg)] under a condition, and under a non-nil
    error formatted into the message. *)
Definition append_if (cond : bool) (msg : string) (errs : list string)
  : list string :=
  if cond then errs ++ [msg] else errs.

Definition append_err (err : error) (msg : string -> string)
  (errs : list string) : list string :=
  match err with Some e => errs ++ [msg e] | None => errs end.

(** [assertConfigInvariants] *)
Definition assertConfigInvariants (Config : WalkerConfig) : error :=
  let errs : list string := [] in
  let dis := Dispatcher Config in
  let errs :=
    append_if (SFltb (RefreshPercentage dis) (float64_of_Z 0)
               || SFltb (float64_of_Z 100) (RefreshPercentage dis))
      "Dispatcher.RefreshPercentage must be a floating point number b/w 0 and 100"
      errs in
  let errs :=
    append_if (MaxLinksPerSegment dis <? 1)
      "Dispatcher.MaxLinksPerSegment must be greater than 0" errs in
  let errs :=
    append_if (NumConcurrentDomains dis <? 1)
      "Dispatcher.NumConcurrentDomains must be greater than 0" errs in
  let errs :=
    append_err (err_of (time_ParseDuration sys (HttpTimeout Config)))
      (fun err => "HttpTimeout failed to parse: " +:+ err) errs in
  let errs :=
    append_err (err_of (time_ParseDuration sys (Timeout (Cassandra Config))))
      (fun err => "Cassandra.Timeout failed to parse: " +:+ err) errs in
  let errs :=
    append_err (aggregateRegex sys (ExcludeLinkPatterns Config)
                  "exclude_link_patterns")
      (fun err => err) errs in
  let errs :=
    append_err (aggregateRegex sys (IncludeLinkPatterns Config)
                  "include_link_patterns")
      (fun err => err) errs in
  let errs :=
    append_err
      (err_of (time_ParseDuration sys (MinLinkRefreshTime (Dispatcher Config))))
      (fun err => "Dispatcher.MinLinkRefreshTime failed to parse: " +:+ err)
      errs in
  let def := time_ParseDuration sys (DefaultCrawlDelay Config) in
  let errs :=
    append_err (err_of def)
      (fun err => "DefaultCrawlDelay failed to parse: " +:+ err) errs in
  let max := time_ParseDuration sys (MaxCrawlDelay Config) in
  let errs :=
    append_err (err_of max)
      (fun err => "MaxCrawlDelay failed to parse: " +:+ err) errs in
  let errs :=
    append_if (duration 0 max <? duration 0 def)
      "Consistency problem: MaxCrawlDelay > DefaultCrawlDealy" errs in
  if (0 <? length errs)%nat then
    let em := foldl (fun em err => em +:+ tab +:+ err +:+ newline) "" errs in
    Some ("Config Error:" +:+ newline +:+ em +:+ newline)
  else None.

(** [PostConfigHooks]: the value it panics with, if it does. *)
Definition PostConfigHooks (Config : WalkerConfig) : option string :=
  setupParseURL sys Config.

Definition or_default (given fallback : list string) : list string :=
  if (length given =? 0)%nat then fallback else given.

(** [readConfig], from the global [ConfigName] to the new value of the
    global [Config] and the way the call ends. *)
Definition readConfig (ConfigName : string) : WalkerConfig * ending :=
  let Config := SetDefaultConfig in
  let Config := set_sequences [] [] [] [] [] Config in
  match ioutil_ReadFile sys ConfigName with
  | Err err =>
      (Config,
       Returns (Some ("Failed to read config file (" +:+ ConfigName +:+ "): "
                      +:+ err)))
  | Ok data =>
      match yaml_Unmarshal sys data Config with
      | (Config, Some err) =>
          (Config,
           Returns (Some ("Failed to unmarshal yaml from config file ("
                          +:+ ConfigName +:+ "): " +:+ err)))
      | (Config, None) =>
          let Config :=
            set_sequences
              (or_default (AcceptFormats Config) ["text/html"; "text/*;"])
              (or_default (AcceptProtocols Config) ["http"; "https"])
              (or_default (IgnoreTags Config) ["script"; "img"; "link"])
              (or_default (Hosts (Cassandra Config)) ["localhost"])
              (or_default (PurgeSidList Config)
                 ["jsessionid"; "phpsessid"; "aspsessionid"])
              Config in
          let err := assertConfigInvariants Config in
          match PostConfigHooks Config with
          | Some msg => (Config, Panics msg)
          | None => (Config, Returns err)
          end
      end
  end.

(** [ReadConfigFile] *)
Definition ReadConfigFile (path : string) : WalkerConfig * ending :=
  readConfig path.

(** *** The invariants validated at load, as they are described *)

Definition parses (s : string) : Prop :=
  err_of (time_ParseDuration sys s) = None.

Record load_invariants (c : WalkerConfig) : Prop := mk_load_invariants {
  refresh_percentage_in_range :
    SFleb (float64_of_Z 0) (RefreshPercentage (Dispatcher c)) = true /\
    SFleb (RefreshPercentage (Dispatcher c)) (float64_of_Z 100) = true;
  max_links_per_segment_positive : 1 <= MaxLinksPerSegment (Dispatcher c);
  num_concurrent_domains_positive : 1 <= NumConcurrentDomains (Dispatcher c);
  durations_parse :
    parses (HttpTimeout c) /\ parses (Timeout (Cassandra c)) /\
    parses (MinLinkRefreshTime (Dispatcher c)) /\
    parses (DefaultCrawlDelay c) /\ parses (MaxCrawlDelay c);
  patterns_compile :
    aggregateRegex sys (ExcludeLinkPatterns c) "exclude_link_patterns" = None /\
    aggregateRegex sys (IncludeLinkPatterns c) "include_link_patterns" = None;
  default_crawl_delay_below_max :
    duration 0 (time_ParseDuration sys (DefaultCrawlDelay c))
    <= duration 0 (time_ParseDuration sys (MaxCrawlDelay c))
}.

(** The conditions [assertConfigInvariants] tests, none of them met. *)
Record checks_pass (c : WalkerConfig) : Prop := mk_checks_pass {
  refresh_not_below :
    SFltb (RefreshPercentage (Dispatcher c)) (float64_of_Z 0) = false;
  refresh_not_above :
    SFltb (float64_of_Z 100) (RefreshPercentage (Dispatcher c)) = false;
  passes_rest :
    1 <= MaxLinksPerSegment (Dispatcher c) /\
    1 <= NumConcurrentDomains (Dispatcher c) /\
    parses (HttpTimeout c) /\ parses (Timeout (Cassandra c)) /\
    aggregateRegex sys (ExcludeLinkPatterns c) "exclude_link_patterns" = None /\
    aggregateRegex sys (IncludeLinkPatterns c) "include_link_patterns" = None /\
    parses (MinLinkRefreshTime (Dispatcher c)) /\
    parses (DefaultCrawlDelay c) /\ parses (MaxCrawlDelay c) /\
    duration 0 (time_ParseDuration sys (DefaultCrawlDelay c))
    <= duration 0 (time_ParseDuration sys (MaxCrawlDelay c))
}.

(** The file cannot be read; it is read and is not the YAML of a
    [WalkerConfig]. *)
Definition unreadable (ConfigName : string) : Prop :=
  is_Some (err_of (ioutil_ReadFile sys ConfigName)).

Definition malformed (ConfigName : string) : Prop :=
  match ioutil_ReadFile sys ConfigName with
  | Ok data =>
      is_Some (yaml_Unmarshal sys data
                 (set_sequences [] [] [] [] [] SetDefaultConfig)).2
  | Err _ => False
  end.

End Config.

End ConfigFile.

(** ** A small system to load configurations in *)

Module ConfigExample.
Import ConfigFile.

(** A fragment of [time.ParseDuration]: [0], or an unsigned decimal
    integer followed by one unit. *)
Definition digit (c : ascii) : option Z :=
  let n := Z.of_nat (nat_of_ascii c) in
  if (48 <=? n) && (n <=? 57) then Some (n - 48) else None.

Fixpoint leading (s : string) (acc : Z) (seen : bool) : option (Z * string) :=
  match s with
  | String c rest =>
      match digit c with
      | Some d => leading rest (10 * acc + d) true
      | None => if seen then Some (acc, s) else None
      end
  | EmptyString => if seen then Some (acc, "") else None
  end.

Definition unit_of (s : string) : option Duration :=
  if String.eqb s "ns" then Some Nanosecond
  else if String.eqb s "us" then Some Microsecond
  else if String.eqb s "ms" then Some Millisecond
  else if String.eqb s "s" then Some Second
  else if String.eqb s "m" then Some Minute
  else if String.eqb s "h" then Some Hour
  else None.

Definition time_ParseDuration (s : string) : result Duration :=
  if String.eqb s "0" then Ok 0
  else
    match leading s 0 false with
    | Some (n, u) =>
        match unit_of u with
        | Some d => Ok (n * d)
        | None => Err ("time: unknown unit in duration " +:+ s)
        end
    | None => Err ("time: invalid duration " +:+ s)
    end.

Definition with_Dispatcher (d : DispatcherConfig) (c : WalkerConfig)
  : WalkerConfig :=
  mkWalkerConfig
    (AddNewDomains c) (AddedDomainsCacheSize c) (MaxDNSCacheEntries c)
    (UserAgent c) (AcceptFormats c) (AcceptProtocols c)
    (MaxHTTPContentSizeBytes c) (IgnoreTags c) (MaxLinksPerPage c)
    (NumSimultaneousFetchers c) (BlacklistPrivateIPs c) (HttpTimeout c)
    (HonorMetaNoindex c) (HonorMetaNofollow c) (ExcludeLinkPatterns c)
    (IncludeLinkPatterns c) (DefaultCrawlDelay c) (MaxCrawlDelay c)
    (PurgeSidList c) d (Cassandra c) (Console c).

Definition with_DefaultCrawlDelay (d : string) (c : WalkerConfig)
  : WalkerConfig :=
  mkWalkerConfig
    (AddNewDomains c) (AddedDomainsCacheSize c) (MaxDNSCacheEntries c)
    (UserAgent c) (AcceptFormats c) (AcceptProtocols c)
    (MaxHTTPContentSizeBytes c) (IgnoreTags c) (MaxLinksPerPage c)
    (NumSimultaneousFetchers c) (BlacklistPrivateIPs c) (HttpTimeout c)
    (HonorMetaNoindex c) (HonorMetaNofollow c) (ExcludeLinkPatterns c)
    (IncludeLinkPatterns c) d (MaxCrawlDelay c)
    (PurgeSidList c) (Dispatcher c) (Cassandra c) (Console c).

(** The files on disk; walker.yaml is not among them. *)
Definition ioutil_ReadFile (name : string) : result string :=
  if String.eqb name "nan.yaml" then
    Ok "dispatcher: {refresh_percentage: .nan}"
  else if String.eqb name "slow.yaml" then Ok "default_crawl_delay: 10m"
  else if String.eqb name "quick.yaml" then Ok "default_crawl_delay: 2s"
  else if String.eqb name "notes.txt" then Ok "- not: [a config"
  else Err ("open " +:+ name +:+ ": no such file or directory").

(** [yaml.Unmarshal] on these files. *)
Definition yaml_Unmarshal (data : string) (c : WalkerConfig)
  : WalkerConfig * error :=
  if String.eqb data "dispatcher: {refresh_percentage: .nan}" then
    (with_Dispatcher
       (mkDispatcherConfig (MaxLinksPerSegment (Dispatcher c)) S754_nan
          (NumConcurrentDomains (Dispatcher c))
          (MinLinkRefreshTime (Dispatcher c))) c,
     None)
  else if String.eqb data "default_crawl_delay: 10m" then
    (with_DefaultCrawlDelay "10m" c, None)
  else if String.eqb data "default_crawl_delay: 2s" then
    (with_DefaultCrawlDelay "2s" c, None)
  else (c, Some "yaml: did not find expected node content").

Definition sys : System :=
  mkSystem ioutil_ReadFile yaml_Unmarshal time_ParseDuration
           (fun _ _ => None) (fun _ => None).

End ConfigExample.

(** ** The dispatcher

    The dispatcher itself (package [cassandra], dispatcher.go) is not among
    the sources, only its tests are: this module follows its description. *)

Module Dispatcher.

(** Modelled from the spec: the dispatcher's crawl times, whose sentinel
    [NotYetCrawled] is epoch zero; dispatcher.go is missing.  Times are
    nanoseconds since the epoch. *)
Definition NotYetCrawled : Z := 0.

(** Modelled from the spec: a link record of the missing store schema. *)
Record LinkRow : Type := mkLinkRow {
  domain : string;
  subdomain : string;
  path : string;
  scheme : string;
  crawl_time : Z;
  status : Z;
  getnow : bool
}.

(** Modelled from the spec: a row of the [segments] table. *)
Record SegmentRow : Type := mkSegmentRow {
  seg_subdomain : string;
  seg_path : string;
  seg_scheme : string;
  seg_crawl_time : Z
}.

(** Modelled from the spec: a row of the [domain_info] table, keyed by the
    domain. *)
Record DomainInfo : Type := mkDomainInfo {
  claim_token : option string;
  claim_time : Z;
  priority : Z;
  dispatched : bool;
  excluded : bool;
  total_links : nat;
  uncrawled_links : nat;
  queued_links : nat
}.

(** Modelled from the spec: the three tables of the link store. *)
Record Store : Type := mkStore {
  links : list LinkRow;
  segments : gmap string (list SegmentRow);
  domain_info : gmap string DomainInfo
}.

(** Modelled from the spec: the validated configuration values the
    dispatcher is given. *)
Record Settings : Type := mkSettings {
  MaxLinksPerSegment : nat;
  RefreshPercentage : Q;
  MinLinkRefreshTime : Duration
}.

Section Dispatch.

Variable cfg : Settings.

(** The instant of the dispatch cycle. *)
Variable now : Z.

Definition same_url (a b : LinkRow) : bool :=
  String.eqb (domain a) (domain b) && String.eqb (subdomain a) (subdomain b)
  && String.eqb (path a) (path b) && String.eqb (scheme a) (scheme b).

(** Modelled from the spec: the latest row of each URL, the newest crawl
    time winning. *)
Definition latest (rows : list LinkRow) : list LinkRow :=
  List.filter
    (fun r => negb (existsb (fun r' => same_url r r'
                                       && (crawl_time r <? crawl_time r'))
                            rows))
    rows.

(** Modelled from the spec: the order of ties, [(subdomain, path, scheme)]
    lexicographically, and the order of the refreshable links, oldest
    first. *)
Definition url_leb (a b : LinkRow) : bool :=
  match String.compare (subdomain a) (subdomain b) with
  | Lt => true
  | Gt => false
  | Eq =>
      match String.compare (path a) (path b) with
      | Lt => true
      | Gt => false
      | Eq => String.leb (scheme a) (scheme b)
      end
  end.

Definition oldest_leb (a b : LinkRow) : bool :=
  (crawl_time a <? crawl_time b)
  || ((crawl_time a =? crawl_time b) && url_leb a b).

Definition by_url : relation LinkRow := fun a b => url_leb a b = true.
Definition oldest_first : relation LinkRow := fun a b => oldest_leb a b = true.

#[export] Instance by_url_dec : RelDecision by_url :=
  fun a b => decide (url_leb a b = true).
#[export] Instance oldest_first_dec : RelDecision oldest_first :=
  fun a b => decide (oldest_leb a b = true).

(** Modelled from the spec: the three pools of a domain's links. *)
Definition is_getnow (r : LinkRow) : bool := getnow r.

Definition is_uncrawled (r : LinkRow) : bool :=
  negb (getnow r) && (crawl_time r =? NotYetCrawled).

Definition is_refreshable (r : LinkRow) : bool :=
  negb (getnow r) && negb (crawl_time r =? NotYetCrawled)
  && (MinLinkRefreshTime cfg <=? now - crawl_time r).

Definition refresh_target (remaining : nat) : nat :=
  Z.to_nat (Qfloor (inject_Z (Z.of_nat remaining)
                    * (RefreshPercentage cfg / inject_Z 100))%Q).

(** Modelled from the spec: segment selection, steps 1 to 5. *)
Definition select_segment (rows : list LinkRow) : list LinkRow :=
  let rows := latest rows in
  let pool_getnow := List.filter is_getnow rows in
  let pool_refresh :=
    merge_sort oldest_first (List.filter is_refreshable rows) in
  let pool_uncrawled :=
    merge_sort by_url (List.filter is_uncrawled rows) in
  let S := MaxLinksPerSegment cfg in
  let selected := take S pool_getnow in
  let remaining := (S - length selected)%nat in
  let target_refresh := refresh_target remaining in
  let target_uncrawled := (remaining - target_refresh)%nat in
  let taken_refresh := Nat.min target_refresh (length pool_refresh) in
  let quota_uncrawled :=
    (target_uncrawled + (target_refresh - taken_refresh))%nat in
  let taken_uncrawled := Nat.min quota_uncrawled (length pool_uncrawled) in
  let quota_refresh :=
    (target_refresh + (quota_uncrawled - taken_uncrawled))%nat in
  let taken_refresh := Nat.min quota_refresh (length pool_refresh) in
  selected ++ take taken_refresh pool_refresh
           ++ take taken_uncrawled pool_uncrawled.

Definition segment_row (r : LinkRow) : SegmentRow :=
  mkSegmentRow (subdomain r) (path r) (scheme r) (crawl_time r).

Definition domain_links (st : Store) (d : string) : list LinkRow :=
  List.filter (fun r => String.eqb (domain r) d) (links st).

(** Modelled from the spec: the statistics refreshed on each cycle. *)
Definition with_statistics (rows : list LinkRow) (queued : nat)
  (is_dispatched : bool) (di : DomainInfo) : DomainInfo :=
  mkDomainInfo (claim_token di) (claim_time di) (priority di) is_dispatched
               (excluded di)
               (length (latest rows))
               (length (List.filter (fun r => crawl_time r =? NotYetCrawled)
                                    (latest rows)))
               queued.

(** Modelled from the spec: what a dispatch cycle does for one domain.  A
    domain that is excluded or already dispatched is skipped; an empty
    segment is not written and leaves [dispatched] as it is. *)
Definition dispatch_domain (st : Store) (d : string) : Store :=
  match domain_info st !! d with
  | None => st
  | Some di =>
      if excluded di || dispatched di then st
      else
        let rows := domain_links st d in
        let segment := select_segment rows in
        match segment with
        | [] =>
            mkStore (links st) (segments st)
                    (<[d := with_statistics rows 0 (dispatched di) di]>
                       (domain_info st))
        | _ :: _ =>
            mkStore (links st)
                    (<[d := map segment_row segment]> (segments st))
                    (<[d := with_statistics rows (length segment) true di]>
                       (domain_info st))
        end
  end.

(** Modelled from the spec: one dispatch cycle over all the domains. *)
Definition dispatch_cycle (st : Store) : Store :=
  foldl dispatch_domain st (map fst (map_to_list (domain_info st))).

(** Modelled from the spec: a link that was crawled less than
    [MinLinkRefreshTime] ago and is not marked getnow. *)
Definition young (r : LinkRow) : Prop :=
  getnow r = false /\ crawl_time r <> NotYetCrawled /\
  now - crawl_time r < MinLinkRefreshTime cfg.

(** What is kept of an idle domain with an empty segment while the cycle
    goes through the domains. *)
Definition left_idle (st0 : Store) (d : string) (st : Store) : Prop :=
  links st = links st0 /\
  segments st !! d = segments st0 !! d /\
  exists di, domain_info st !! d = Some di /\ dispatched di = false.

End Dispatch.

End Dispatcher.

(** ** A small store to dispatch *)

Module DispatcherExample.
Import Dispatcher.

Definition settings : Settings := mkSettings 9 (33 # 1) (49 * Hour).

Definition now : Z := 1400000000 * Second.
Definition Day : Duration := 24 * Hour.

Definition idle : DomainInfo := mkDomainInfo None 0 0 false false 0 0 0.

(** test.com has one link never crawled; quiet.com has one link crawled a
    day ago, and an older crawl of the same link. *)
Definition store : Store :=
  mkStore
    [ mkLinkRow "test.com" "" "/" "http" NotYetCrawled (-1) false;
      mkLinkRow "quiet.com" "www" "/news" "http" (now - 1 * Day) 200 false;
      mkLinkRow "quiet.com" "www" "/news" "http" (now - 9 * Day) 200 false ]
    ∅
    (<["test.com" := idle]> (<["quiet.com" := idle]> ∅)).

End DispatcherExample.

(** ** Package [walker], file fetcher.go: building and splitting URLs *)

Module WalkerURL.
Import Walker.

(** [strings.HasSuffix] and [strings.TrimSuffix] *)
Definition HasSuffix (s suffix : string) : bool :=
  (String.length suffix <=? String.length s)%nat
  && String.eqb (String.substring (String.length s - String.length suffix)
                                  (String.length suffix) s)
                suffix.

Definition TrimSuffix (s suffix : string) : string :=
  if HasSuffix s suffix
  then String.substring 0 (String.length s - String.length suffix) s
  else s.

Section URLs.

Variable lib : Library.

(** [publicsuffix.EffectiveTLDPlusOne] *)
Variable EffectiveTLDPlusOne : string -> result string.

(** The reference [CreateURL] formats before it parses it: lines 68 to
    75. *)
Definition CreateURL_ref (domain subdomain path protocol : string) : string :=
  let subdomain :=
    if negb (String.eqb subdomain "") && negb (HasSuffix subdomain ".")
    then subdomain +:+ "." else subdomain in
  let path :=
    if negb (String.eqb path "") && negb (HasPrefix path "/")
    then "/" +:+ path else path in
  protocol +:+ "://" +:+ subdomain +:+ domain +:+ path.

(** [CreateURL].  [ParseURL] never returns a nil pointer, so the
    assignment to [u.LastCrawled] cannot fail. *)
Definition CreateURL (domain subdomain path protocol : string)
  (lastcrawled : Time) : option URL * error :=
  let ref := CreateURL_ref domain subdomain path protocol in
  match ParseURL lib ref with
  | (_, Some err) => (None, Some err)
  | (u, None) => ((fun u => mkURL (URL_ u) lastcrawled) <$> u, None)
  end.

(** [ToplevelDomainPlusOne] and [Subdomain]; [None] is the panic of a
    receiver whose embedded pointer is nil. *)
Definition ToplevelDomainPlusOne (u : URL) : option string :=
  x ← URL_ u;
  match EffectiveTLDPlusOne (Host x) with
  | Err _ => Some (Host x)
  | Ok domain => Some domain
  end.

Definition Subdomain (u : URL) : option string :=
  tld ← ToplevelDomainPlusOne u;
  x ← URL_ u;
  if (String.length (Host x) =? String.length tld)%nat then Some ""
  else Some (TrimSuffix (Host x) ("." +:+ tld)).

End URLs.

End WalkerURL.

(** A fragment of the public suffix list: the domains registered under
    com and under co.uk. *)
Module WalkerURLExample.
Import Walker WalkerURL.

Definition EffectiveTLDPlusOne (domain : string) : result string :=
  if HasSuffix domain ".test.com" || String.eqb domain "test.com"
  then Ok "test.com"
  else if HasSuffix domain ".bbc.co.uk" || String.eqb domain "bbc.co.uk"
  then Ok "bbc.co.uk"
  else Err ("publicsuffix: cannot derive eTLD+1 for domain " +:+ domain).

Definition bbc : URL :=
  mkURL (Some (mk_url "http" "" None "www.bbc.co.uk" "/news" "" ""))
        NotYetCrawled.

Definition yesterday : Time := time_Unix 1399913600 0.

End WalkerURLExample.

(** ** Package [walker], file config.go: start-up *)

Module ConfigInit.
Import ConfigFile.

(** [strings.Contains] *)
Fixpoint Contains (s substr : string) : bool :=
  String.prefix substr s
  || match s with
     | String _ s' => Contains s' substr
     | EmptyString => false
     end.

Section Init.

Variable sys : System.

(** [init], with [ConfigName] at its initial value: the new value of
    [Config] and the value [init] panics with, if it does. *)
Definition init : WalkerConfig * option string :=
  match readConfig sys "walker.yaml" with
  | (Config, Panics msg) => (Config, Some msg)
  | (Config, Returns None) => (Config, None)
  | (Config, Returns (Some err)) =>
      if Contains err "no such file or directory" then (Config, None)
      else (Config, Some err)
  end.

(** [MustReadConfigFile] *)
Definition MustReadConfigFile (path : string) : WalkerConfig * option string :=
  match ReadConfigFile sys path with
  | (Config, Panics msg) => (Config, Some msg)
  | (Config, Returns None) => (Config, None)
  | (Config, Returns (Some err)) => (Config, Some err)
  end.

End Init.

End ConfigInit.

(** ** Package [walker], file mocks.go *)

Module Mocks.

(** [http.Header] *)
Abbreviation Header := (gmap string (list string)).

(** [MockResponse] *)
Record MockResponse : Type := mkMockResponse {
  Status : Z;
  Method : string;
  Body : string;
  Headers : Header;
  ContentType : string;
  ContentLength : Z
}.

Definition set_Method (m : string) (r : MockResponse) : MockResponse :=
  mkMockResponse (Status r) m (Body r) (Headers r) (ContentType r)
                 (ContentLength r).
Definition set_Status (st : Z) (r : MockResponse) : MockResponse :=
  mkMockResponse st (Method r) (Body r) (Headers r) (ContentType r)
                 (ContentLength r).
Definition set_ContentType (ct : string) (r : MockResponse) : MockResponse :=
  mkMockResponse (Status r) (Method r) (Body r) (Headers r) ct
                 (ContentLength r).

(** [MockHTTPHandler].  The inner maps of [returns] hold pointers to
    [MockResponse]: an assignment through such a pointer is an update of
    the entry. *)
Record MockHTTPHandler : Type := mkMockHTTPHandler {
  returns : gmap string (gmap string MockResponse);
  headers : gmap string (gmap string (list Header))
}.

Definition methods : list string :=
  ["DELETE"; "GET"; "HEAD"; "OPTIONS"; "POST"; "PUT"; "TRACE"].

(** [NewMockHTTPHandler] *)
Definition NewMockHTTPHandler : MockHTTPHandler :=
  mkMockHTTPHandler
    (<["DELETE" := ∅]> (<["GET" := ∅]> (<["HEAD" := ∅]> (<["OPTIONS" := ∅]>
     (<["POST" := ∅]> (<["PUT" := ∅]> (<["TRACE" := ∅]> ∅)))))))
    (<["DELETE" := ∅]> (<["GET" := ∅]> (<["HEAD" := ∅]> (<["OPTIONS" := ∅]>
     (<["POST" := ∅]> (<["PUT" := ∅]> (<["TRACE" := ∅]> ∅))))))).

(** [SetResponse].  Writing into the nil map that [s.returns] gives for
    a method it has no entry for panics. *)
Definition SetResponse (link : string) (r : MockResponse)
  (s : MockHTTPHandler) : attempt MockHTTPHandler :=
  let r := if String.eqb (Method r) "" then set_Method "GET" r else r in
  match returns s !! Method r with
  | None => Panicked "assignment to entry in nil map"
  | Some m =>
      Done (mkMockHTTPHandler (<[Method r := <[link := r]> m]> (returns s))
                              (headers s))
  end.

(** [storeHeader] *)
Definition storeHeader (method link : string) (inHeaders : Header)
  (s : MockHTTPHandler) : MockHTTPHandler * error :=
  let headers_copy : Header := (fun list => [] ++ list) <$> inHeaders in
  match headers s !! method with
  | None => (s, Some ("Failed to find method " +:+ method +:+ " in headers"))
  | Some m =>
      (mkMockHTTPHandler
         (returns s)
         (<[method := <[link := default [] (m !! link) ++ [headers_copy]]> m]>
            (headers s)),
       None)
  end.

(** The request a server hands to [ServeHTTP], and what has been written
    to its [http.ResponseWriter]; [w_broken] is the error [Write] would
    return. *)
Record ServerRequest : Type := mkServerRequest {
  TLS : bool;
  URL : Walker.url_URL;
  Host : string;
  req_Method : string;
  req_Header : Header
}.

Record ResponseWriter : Type := mkResponseWriter {
  w_Header : Header;
  w_Status : option Z;
  w_Body : string;
  w_broken : error
}.

Section Server.

(** The [String] method of [url.URL], and the [%q] verb of [fmt]. *)
Variable url_String : Walker.url_URL -> string.
Variable strconv_Quote : string -> string.

(** The link [ServeHTTP] looks a request up under. *)
Definition link_of (r : ServerRequest) : string :=
  url_String (Walker.set_Host (Host r)
                (Walker.set_Scheme (if TLS r then "https" else "http") (URL r))).

(** [ServeHTTP] *)
Definition ServeHTTP (w : ResponseWriter) (r : ServerRequest)
  (s : MockHTTPHandler) : attempt (MockHTTPHandler * ResponseWriter) :=
  match returns s !! req_Method r with
  | None =>
      Panicked ("Got an http method we didn't expect: " +:+ req_Method r)
  | Some m =>
      let link := link_of r in
      let s := (storeHeader (req_Method r) link (req_Header r) s).1 in
      match m !! link with
      | None => Done (s, w)
      | Some res =>
          let res := if Status res =? 0 then set_Status 200 res else res in
          let res := if String.eqb (ContentType res) ""
                     then set_ContentType "text/html" res else res in
          let s := mkMockHTTPHandler
                     (<[req_Method r := <[link := res]> m]> (returns s))
                     (headers s) in
          let h := <["Content-Type" := [ContentType res]]> (w_Header w) in
          let h := if negb (ContentLength res =? 0)
                   then <["Content-Length" := [pretty (ContentLength res)]]> h
                   else h in
          match w_broken w with
          | Some err =>
              Panicked ("Failed to write response for page " +:+ link
                        +:+ ", err: " +:+ err)
          | None =>
              Done (s, mkResponseWriter h (Some (Status res))
                         (w_Body w +:+ Body res) None)
          end
      end
  end.

(** [MockRemoteServer.Headers].  An index outside the list panics. *)
Definition MockRemoteServer_Headers (method url : string) (depth : Z)
  (s : MockHTTPHandler)
  : attempt (result Header) :=
  match headers s !! method with
  | None => Done (Err ("Failed to find method " +:+ strconv_Quote method))
  | Some m =>
      match m !! url with
      | None => Done (Err ("Failed to find link " +:+ strconv_Quote url))
      | Some head =>
          if Z.of_nat (length head) <=? depth then
            Done (Err ("Depth (" +:+ pretty depth
                       +:+ ") was >= length of headers "
                       +:+ pretty (Z.of_nat (length head))))
          else
            let i := if depth <? 0 then (length head - 1)%nat
                     else Z.to_nat depth in
            match head !! i with
            | Some h => Done (Ok h)
            | None => Panicked "index out of range"
            end
      end
  end.

(** [Requested] *)
Definition Requested (method url : string) (s : MockHTTPHandler) : bool :=
  match headers s !! method with
  | None => false
  | Some m =>
      match m !! url with
      | None => false
      | Some head => negb (length head =? 0)%nat
      end
  end.

End Server.

(** [MockHandler.HandleResponse], up to its last line: the result it
    passes to [h.Mock.Called], which records the call. *)
Definition HandleResponse (fr : Walker.FetchResults)
  : attempt Walker.FetchResults :=
  match Walker.fr_Response fr with
  | None => Panicked "invalid memory address or nil pointer dereference"
  | Some resp =>
      let '(data, err, _) := Walker.ioutil_ReadAll (Walker.RespBody resp) in
      match err with
      | Some err => Panicked err
      | None =>
          Done (Walker.set_Response
                  (Some (Walker.set_Body (Walker.bytes_NewReader data) resp))
                  fr)
      end
  end.

End Mocks.

(** ** What to read off the events of a fetcher *)

Module FetcherTrace.
Import Walker.

(** The calls of [StoreURLFetchResults], and the requests sent, in
    order. *)
Definition stored_results (evs : list Event) : list FetchResults :=
  omap (fun e => match e with
                 | EvStoreURLFetchResults fr => Some fr
                 | _ => None
                 end) evs.

Definition requests (evs : list Event) : list Request :=
  omap (fun e => match e with EvHttpDo req => Some req | _ => None end) evs.

(** Events that neither claim nor release a host, nor end the fetcher. *)
Definition keeps_claim (e : Event) : Prop :=
  match e with
  | EvUnclaimHost _ | EvClaimNewHost _ | EvDone => False
  | _ => True
  end.

(** The discipline of claims along some events, from a fetcher that holds
    [held] (the empty string for none): a host is released only while
    held, a claim is made only while none is held, and the fetcher
    reports done, as its last step, only while none is held. *)
Fixpoint well_claimed (held : string) (evs : list Event) : Prop :=
  match evs with
  | [] => True
  | EvUnclaimHost h :: evs => h = held /\ held <> "" /\ well_claimed "" evs
  | EvClaimNewHost h :: evs => held = "" /\ well_claimed h evs
  | EvDone :: evs => held = "" /\ evs = []
  | _ :: evs => well_claimed held evs
  end.

(** A request as [fetcher.fetch] sends it. *)
Definition walker_request (Config : FetcherConfig) (req : Request) : Prop :=
  Method req = "GET" /\
  ReqHeader req !! "User-Agent" = Some [UserAgent Config].

(** A result as the handler may be given it. *)
Definition deliverable (fr : FetchResults) : Prop :=
  is_Some (fr_Response fr) /\ FetchError fr = None /\
  ExcludedByRobots fr = false.

(** A handler that returns on every result it may be given, and leaves
    the URL of the result as it is. *)
Definition returns_the_URL (world : World) : Prop :=
  forall now fr, deliverable fr ->
    exists fr', Handler_HandleResponse world now fr = Done fr' /\
                fr_URL fr' = fr_URL fr.

(** The events of the loop over the links, for what they carry. *)
Definition sound_event (Config : FetcherConfig) (e : Event) : Prop :=
  match e with
  | EvHttpDo req => walker_request Config req
  | EvHandleResponse fr => deliverable fr
  | EvStoreParsedURL u fr =>
      is_Some (URL_ u) /\ LastCrawled u = NotYetCrawled /\ deliverable fr
  | _ => True
  end.

Section Expected.

Variable lib : Library.
Variable Config : FetcherConfig.
Variable world : World.

(** What the call of the handler at instant [now] and the store after it
    come to: lines 232 to 234. *)
Definition handed_over (fr : FetchResults) (now : nat)
  : outcome unit * list Event :=
  match Handler_HandleResponse world now fr with
  | Done fr' => (Val (), [EvHandleResponse fr; EvStoreURLFetchResults fr'])
  | Panicked msg => (Panic msg, [EvHandleResponse fr])
  end.

(** How the loop body ends and what it emits once a response is fetched,
    from instant [now]: the three ways of lines 197 to 234. *)
Definition response_run (link : URL) (l : url_URL) (fr : FetchResults)
  (resp : Response) (now : nat) : outcome unit * list Event :=
  let fr := set_Response (Some resp) fr in
  if isHTML (Some resp) then
    match read_err (RespBody resp) with
    | Some e =>
        (Val (),
         [EvStoreURLFetchResults
            (set_FetchError (Some e)
               (set_Response (Some (set_Body (mkBody [] (Some e)) resp)) fr))])
    | None =>
        let body := unread (RespBody resp) in
        let fr := set_Response (Some (set_Body (bytes_NewReader body) resp))
                    (set_FetchError None fr) in
        let parsed := map (fun o => EvStoreParsedURL (inherited l o) fr)
                          (getLinks lib Config body).1 in
        let r := handed_over fr (length parsed + now) in
        (r.1, parsed ++ r.2)
    end
  else handed_over fr now.

(** The same for a link that is not excluded, whose embedded URL is
    [l]. *)
Definition allowed_link_run (f : fetcher) (link : URL) (l : url_URL)
  (now : nat) : outcome unit * list Event :=
  let fr := mkFetchResults link None None (time_Now world (S now)) false in
  match http_NewRequest lib "GET" (url_String lib l) with
  | Err err =>
      (Val (),
       [EvSleep (crawldelay f);
        EvStoreURLFetchResults
          (set_FetchError
             (Some ("Failed to create new request object for "
                    +:+ url_String lib l +:+ "): " +:+ err)) fr)])
  | Ok req =>
      let req := Header_Set "User-Agent" (UserAgent Config) req in
      match http_Do world (S now) req with
      | Err err =>
          (Val (),
           [EvSleep (crawldelay f); EvHttpDo req;
            EvStoreURLFetchResults (set_FetchError (Some err) fr)])
      | Ok resp =>
          let r := response_run link l fr resp (2 + now) in
          (r.1, EvSleep (crawldelay f) :: EvHttpDo req :: r.2)
      end
  end.

(** Whether robots.txt excludes a link, for a fetcher in state [f]. *)
Definition excluded_by (f : fetcher) (l : url_URL) : bool :=
  match robots f with
  | Some g => negb (Test g (url_String lib l))
  | None => false
  end.

Definition link_run (f : fetcher) (link : URL) (l : url_URL) (now : nat)
  : outcome unit * list Event :=
  if excluded_by f l then
    (Val (),
     [EvStoreURLFetchResults (mkFetchResults link None None zeroTime true)])
  else allowed_link_run f link l now.

(** What one turn of the outer loop of [start] emits before it claims a
    host: the release of the host held, if any. *)
Definition release (f : fetcher) : list Event :=
  if bool_decide (host f = "") then [] else [EvUnclaimHost (host f)].

End Expected.

End FetcherTrace.

(** Further inputs to run the fetcher on: a server that breaks off in the
    middle of a page, a link whose URL does not parse back, and the
    results of the crawl of test.com. *)

Module FetcherExample.
Import Walker Example.

Definition broken_page : Response :=
  mkResponse "200 OK" {[ "Content-Type" := ["text/html; charset=utf-8"] ]}
             (mkBody (bytes "<a href=/ne") (Some "unexpected EOF")).

Definition truncating : World :=
  mkWorld (ClaimNewHost (world "")) (LinksForHost (world ""))
          (fun _ _ => Ok broken_page)
          (quit_signaled (world "")) (time_Now (world "")) onlooker.

(** The world of test.com with [MockHandler] of mocks.go for a handler,
    and the same with a server whose plain text breaks off. *)
Definition mocked : World :=
  mkWorld (ClaimNewHost (world "")) (LinksForHost (world ""))
          (http_Do (world "")) (quit_signaled (world ""))
          (time_Now (world "")) (fun _ => Mocks.HandleResponse).

Definition broken_text : Response :=
  mkResponse "200 OK" {[ "Content-Type" := ["text/plain"] ]}
             (mkBody (bytes "plain te") (Some "unexpected EOF")).

Definition mocked_truncating : World :=
  mkWorld (ClaimNewHost (world "")) (LinksForHost (world ""))
          (fun _ _ => Ok broken_text)
          (quit_signaled (world "")) (time_Now (world ""))
          (fun _ => Mocks.HandleResponse).

Definition colon : URL :=
  mkURL (Some (mk_url "" "" None "" ":bad" "" "")) NotYetCrawled.

(** The request the fetcher sends for a URL. *)
Definition request_for (u : url_URL) : Request :=
  mkRequest "GET" u {[ "User-Agent" := [UserAgent config] ]}.

Definition robots_txt_url : url_URL :=
  mk_url "http" "" None "test.com" "/robots.txt" "" "".
Definition next_url : url_URL := mk_url "http" "" None "test.com" "/next" "" "".
Definition next : URL := link "http://test.com/next".
Definition next_page : Response := respond "text/plain" "plain text".

(** What a fetcher that starts on test.com at instant 2 hands over for
    the first and for the last link of the segment. *)
Definition home_result : FetchResults :=
  buffered home fetched (respond "text/html" home_page) (bytes home_page).
Definition next_result : FetchResults :=
  mkFetchResults next (Some next_page) None (time_Unix 1400000014 0) false.
Definition next_outlink : URL := mkURL (Some next_url) NotYetCrawled.

(** The default configuration with [IgnoreTags] in another order, one tag
    twice, and a tag that is not looked at. *)
Definition shuffled : FetcherConfig :=
  mkFetcherConfig (UserAgent config) ["link"; "img"; "blink"; "script"; "img"]
                  1 (20 * 1024 * 1024).

End FetcherExample.

(** A mock server in use: a page set with every field left to its
    default, a request for it, and a handler that has seen one request. *)

Module MocksExample.
Import Mocks.

Definition page : MockResponse :=
  mkMockResponse 0 "" "<a href=/next>next</a>" ∅ "" 0.

Definition writer : ResponseWriter := mkResponseWriter ∅ None "" None.

Definition agent (name : string) : Header := {[ "User-Agent" := [name] ]}.

Definition request (method name : string) : ServerRequest :=
  mkServerRequest false (Walker.mk_url "" "" None "" "/" "" "") "test.com"
                  method (agent name).

(** [%q] on a string that needs no escape. *)
Definition strconv_Quote (s : string) : string :=
  let quote := String (Ascii.ascii_of_nat 34) "" in quote +:+ s +:+ quote.

Definition visited : MockHTTPHandler :=
  (storeHeader "GET" "http://test.com/" (agent "first") NewMockHTTPHandler).1.

End MocksExample.

(** ** Properties of package [walker], file fetcher.go *)

Module WalkerFacts.
Import Walker.

Section ParseURL.

Variable lib : Library.

(** C10. For every input string [ParseURL] returns a non-nil [*URL]
    whose [LastCrawled] is [NotYetCrawled], that is [time.Unix(0, 0)];
    when [url.Parse] fails the wrapper is still returned, its embedded
    [url.URL] nil, together with the error of [url.Parse]. *)
Theorem ParseURL_wraps_every_input (ref : string) :
  NotYetCrawled = time_Unix 0 0 /\
  match url_Parse lib ref with
  | Ok u => ParseURL lib ref = (Some (mkURL (Some u) NotYetCrawled), None)
  | Err msg => ParseURL lib ref = (Some (mkURL None NotYetCrawled), Some msg)
  end.
Proof.
  split; [reflexivity|].
  unfold ParseURL. destruct (url_Parse lib ref); reflexivity.
Qed.

Lemma NotYetCrawled_not_zero : NotYetCrawled <> zeroTime.
Proof. discriminate. Qed.

End ParseURL.

(** *** Computations and their events *)

Section Events.

Lemma bind_run {A B} (m : M A) (k : A -> M B) (now : nat) :
  (m ≫= k) now
  = match m now with
    | (Val a, evs) =>
        let (o, evs') := k a (length evs + now)%nat in (o, evs ++ evs')
    | (Panic msg, evs) => (Panic msg, evs)
    | (OutOfFuel, evs) => (OutOfFuel, evs)
    end.
Proof. reflexivity. Qed.

Lemma bind_val {A B} (m : M A) (k : A -> M B) (now : nat) (a : A) evs :
  m now = (Val a, evs) ->
  (m ≫= k) now
  = ((k a (length evs + now)%nat).1, evs ++ (k a (length evs + now)%nat).2).
Proof.
  intros Hm. rewrite bind_run, Hm.
  by destruct (k a (length evs + now)%nat).
Qed.

Lemma Forall_bind {A B} (P : Event -> Prop) (m : M A) (k : A -> M B) now :
  Forall P (m now).2 ->
  (forall a now', Forall P (k a now').2) ->
  Forall P ((m ≫= k) now).2.
Proof.
  intros Hm Hk. rewrite bind_run.
  destruct (m now) as [[a|msg|] evs]; simpl in *; try done.
  specialize (Hk a (length evs + now)%nat).
  destruct (k a (length evs + now)%nat) as [o evs']; simpl in *.
  by apply Forall_app.
Qed.

End Events.

Section GetLinks.

Variable lib : Library.
Variable Config : FetcherConfig.

Lemma foldl_delete_lookup (ignore : list string) (m : gmap string bool) (k : string) :
  foldl (fun tags t => delete t tags) m ignore !! k
  = if bool_decide (k ∈ ignore) then None else m !! k.
Proof.
  revert m. induction ignore as [|t ignore IH]; intros m; simpl.
  - done.
  - rewrite IH. destruct (decide (k = t)) as [->|Hne].
    + rewrite (bool_decide_eq_true_2 (t ∈ t :: ignore)) by constructor.
      rewrite lookup_delete_eq. by case_bool_decide.
    + rewrite lookup_delete_ne by done.
      case_bool_decide as Hin.
      * rewrite bool_decide_eq_true_2; [done | by constructor].
      * rewrite bool_decide_eq_false_2; [done |].
        intros Hin'. apply elem_of_cons in Hin' as [?|?]; done.
Qed.

Lemma getIncludedTags_lookup (name : string) :
  default false (getIncludedTags Config !! name)
  = bool_decide (name ∈ default_tags)
    && negb (bool_decide (name ∈ IgnoreTags Config)).
Proof.
  unfold getIncludedTags. rewrite foldl_delete_lookup.
  destruct (bool_decide (name ∈ IgnoreTags Config)); simpl.
  - by rewrite andb_false_r.
  - rewrite andb_true_r. unfold default_tags.
    repeat (rewrite lookup_insert; case_decide;
            [subst; symmetry; apply bool_decide_eq_true_2;
             rewrite !elem_of_cons; tauto|]).
    rewrite lookup_empty. simpl. symmetry.
    apply bool_decide_eq_false_2.
    rewrite !elem_of_cons, elem_of_nil. intros Hor.
    repeat (destruct Hor as [Hor|Hor]; [by subst|]). done.
Qed.

Lemma parseAnchorAttrs_app (attrs : list (string * string)) (links : list URL) :
  parseAnchorAttrs lib attrs links = links ++ omap (parsed_href lib) attrs.
Proof.
  revert links. induction attrs as [|[key val] rest IH]; intros links.
  - simpl. by rewrite app_nil_r.
  - cbn [parseAnchorAttrs omap list_omap]. unfold parsed_href at 1. simpl.
    unfold ParseURL.
    destruct rest as [|a rest].
    + destruct (String.eqb key "href"); [|by rewrite app_nil_r].
      destruct (url_Parse lib val); simpl; [done | by rewrite app_nil_r].
    + rewrite IH.
      destruct (String.eqb key "href"); [|done].
      destruct (url_Parse lib val); simpl; [by rewrite <- app_assoc | done].
Qed.

Lemma getLinks_loop_app (toks : list Token) (links : list URL) :
  getLinks_loop lib (getIncludedTags Config) toks links
  = links ++ document_hrefs lib Config toks.
Proof.
  revert links. induction toks as [|t toks IH]; intros links.
  - simpl. by rewrite app_nil_r.
  - cbn [getLinks_loop]. unfold document_hrefs. cbn [map concat].
    fold (document_hrefs lib Config toks).
    unfold hrefs_of_token, considered.
    destruct (tok_type t); try (rewrite IH; done).
    rewrite getIncludedTags_lookup.
    destruct (tok_attr t) as [|a attrs] eqn:Hattr.
    + simpl. rewrite IH.
      by destruct (bool_decide _ && negb (bool_decide _)).
    + rewrite bool_decide_eq_false_2 by done. simpl negb.
      rewrite andb_true_l.
      destruct (bool_decide _ && negb (bool_decide _)); rewrite IH.
      * rewrite parseAnchorAttrs_app. by rewrite <- app_assoc.
      * done.
Qed.

(** C8. [getLinks] looks at the start tags named in
    [{a, area, form, frame, iframe, script, link, img}] and not in
    [IgnoreTags], takes their [href] attribute values only, parses each
    with [ParseURL] and drops those that fail to parse: the list it
    returns is the successfully parsed [href] values in document
    order. *)
Theorem getLinks_returns_document_hrefs
  (contents utf8Reader : list byte)
  (Hreader : charset_NewReader lib contents = Ok utf8Reader) :
  getLinks lib Config contents
  = (document_hrefs lib Config (html_tokens lib utf8Reader), None).
Proof.
  unfold getLinks. rewrite Hreader.
  by rewrite getLinks_loop_app.
Qed.

Lemma parsed_href_embedded (attr : string * string) (u : URL) :
  parsed_href lib attr = Some u -> is_Some (URL_ u).
Proof.
  unfold parsed_href. destruct (String.eqb attr.1 "href"); [|done].
  destruct (url_Parse lib attr.2); [|done].
  intros [= <-]. by eexists.
Qed.

Lemma getLinks_embedded (contents : list byte) :
  Forall (fun o => is_Some (URL_ o)) (getLinks lib Config contents).1.
Proof.
  unfold getLinks. destruct (charset_NewReader lib contents); [|by constructor].
  rewrite getLinks_loop_app. simpl. unfold document_hrefs.
  apply Forall_concat, Forall_map, Forall_forall. intros t _.
  unfold hrefs_of_token. destruct (considered Config t); [|by constructor].
  apply Forall_forall. intros u Hu.
  apply list_elem_of_omap in Hu as (attr & _ & Hattr).
  by eapply parsed_href_embedded.
Qed.

End GetLinks.

(** *** The loop over the links of a host *)

Section Crawl.

Variable lib : Library.
Variable Config : FetcherConfig.
Variable world : World.

Lemma store_outlink_run (link : URL) (l o : url_URL) fr outlink now :
  URL_ link = Some l ->
  URL_ outlink = Some o ->
  store_outlink link fr outlink now
  = (Val (), [EvStoreParsedURL (inherited l outlink) fr]).
Proof.
  intros Hl Ho. unfold store_outlink, deref, inherited, inherit.
  rewrite Hl, Ho. run.
  destruct (String.eqb (Scheme o) ""); simpl;
    match goal with |- context [String.eqb (Host ?x) ""] =>
      destruct (String.eqb (Host x) "") end; reflexivity.
Qed.

Lemma store_outlinks_run (link : URL) (l : url_URL) fr outlinks now :
  URL_ link = Some l ->
  Forall (fun o => is_Some (URL_ o)) outlinks ->
  store_outlinks link fr outlinks now
  = (Val (), map (fun o => EvStoreParsedURL (inherited l o) fr) outlinks).
Proof.
  intros Hl Hall. revert now.
  induction Hall as [|outlink outlinks [o Ho] _ IH]; intros now; [done|].
  cbn [store_outlinks map].
  erewrite bind_val by (by eapply store_outlink_run).
  by rewrite IH.
Qed.

Lemma handle_and_store_run (fr : FetchResults) (now : nat) :
  handle_and_store world fr now
  = match Handler_HandleResponse world now fr with
    | Done fr' => (Val (), [EvHandleResponse fr; EvStoreURLFetchResults fr'])
    | Panicked msg => (Panic msg, [EvHandleResponse fr])
    end.
Proof.
  unfold handle_and_store, HandleResponse. rewrite bind_run.
  by destruct (Handler_HandleResponse world now fr).
Qed.

(** What follows the call of the handler: nothing, or the one store. *)
Lemma handle_and_store_events (fr : FetchResults) (now : nat) :
  exists tail,
    (handle_and_store world fr now).2 = EvHandleResponse fr :: tail /\
    (tail = [] \/ exists fr', tail = [EvStoreURLFetchResults fr']).
Proof.
  rewrite handle_and_store_run.
  destruct (Handler_HandleResponse world now fr) as [fr'|msg];
    eexists; (split; [reflexivity|]); [right; by eexists | by left].
Qed.

Lemma process_response_html (link : URL) (l : url_URL) fetched resp now :
  URL_ link = Some l ->
  isHTML (Some resp) = true ->
  read_err (RespBody resp) = None ->
  let body := unread (RespBody resp) in
  let fr := buffered link fetched resp body in
  exists tail,
    (process_response lib Config world link
       (mkFetchResults link None None fetched false) resp now).2
    = map (fun o => EvStoreParsedURL (inherited l o) fr)
          (getLinks lib Config body).1
      ++ EvHandleResponse fr :: tail /\
    (tail = [] \/ exists fr', tail = [EvStoreURLFetchResults fr']).
Proof.
  intros Hl Hhtml Herr body fr. unfold process_response.
  cbn [set_Response fr_Response]. rewrite Hhtml.
  unfold ioutil_ReadAll. rewrite Herr. fold body.
  cbn [set_FetchError set_Response fr_URL fr_Response FetchError FetchTime
       ExcludedByRobots]. fold (buffered link fetched resp body). fold fr.
  pose proof (getLinks_embedded lib Config body) as Hemb.
  destruct (getLinks lib Config body) as [outlinks [e|]] eqn:Hlinks.
  - assert (outlinks = []) as ->.
    { revert Hlinks. unfold getLinks.
      destruct (charset_NewReader lib body); congruence. }
    rewrite bind_run. cbn [mret M_ret length Nat.add app map fst].
    match goal with |- context [handle_and_store world ?x _] =>
      change x with fr end.
    destruct (handle_and_store_events fr now) as (tail & Hrun & Htail).
    destruct (handle_and_store world fr now) as [o evs]. simpl in Hrun.
    subst evs. by exists tail.
  - erewrite bind_val by (by eapply store_outlinks_run).
    cbn [fst snd].
    match goal with |- context [handle_and_store world ?x _] =>
      change x with fr end.
    match goal with |- context [handle_and_store world fr ?n] =>
      destruct (handle_and_store_events fr n) as (tail & Hrun & Htail) end.
    rewrite Hrun. by exists tail.
Qed.

Lemma stored_outlinks_html (l : url_URL) fr outlinks tail :
  tail = [] \/ (exists fr', tail = [EvStoreURLFetchResults fr']) ->
  stored_outlinks
    (map (fun o => EvStoreParsedURL (inherited l o) fr) outlinks
     ++ EvHandleResponse fr :: tail)
  = map (fun o => (inherited l o, fr)) outlinks.
Proof.
  intros Htail. unfold stored_outlinks.
  induction outlinks as [|o outlinks IH].
  - by destruct Htail as [->|[fr' ->]].
  - cbn [map app omap list_omap]. by f_equal.
Qed.

Lemma handled_html (l : url_URL) fr outlinks tail :
  tail = [] \/ (exists fr', tail = [EvStoreURLFetchResults fr']) ->
  handled
    (map (fun o => EvStoreParsedURL (inherited l o) fr) outlinks
     ++ EvHandleResponse fr :: tail)
  = [fr].
Proof.
  intros Htail. unfold handled.
  induction outlinks as [|o outlinks IH].
  - by destruct Htail as [->|[fr' ->]].
  - cbn [map app omap list_omap]. done.
Qed.

Lemma inherit_fields (l o : url_URL) :
  inherit l o
  = mk_url (if String.eqb (Scheme o) "" then Scheme l else Scheme o)
           (Opaque o) (User o)
           (if String.eqb (Host o) "" then Host l else Host o)
           (Path o) (RawQuery o) (Fragment o).
Proof.
  unfold inherit. destruct o as [sch op us ho pa q fg]. simpl.
  destruct (String.eqb sch ""); simpl; destruct (String.eqb ho ""); reflexivity.
Qed.

(** C7. For every outlink extracted from a fetched HTML page, an empty
    scheme is replaced by the referring URL's scheme and an empty host
    by the referring URL's host before [StoreParsedURL] is called; an
    outlink with a scheme and a host is passed unchanged. *)
Theorem outlinks_inherit_scheme_and_host
  (link : URL) (l : url_URL) (fetched : Time) (resp : Response) (now : nat)
  (Hlink : URL_ link = Some l)
  (Hhtml : isHTML (Some resp) = true)
  (Hread : read_err (RespBody resp) = None) :
  let body := unread (RespBody resp) in
  let outlinks := (getLinks lib Config body).1 in
  let evs := (process_response lib Config world link
                (mkFetchResults link None None fetched false) resp now).2 in
  (stored_outlinks evs).*1 = map (inherited l) outlinks /\
  forall outlink o, outlink ∈ outlinks -> URL_ outlink = Some o ->
    inherited l outlink
    = mkURL (Some (mk_url
               (if String.eqb (Scheme o) "" then Scheme l else Scheme o)
               (Opaque o) (User o)
               (if String.eqb (Host o) "" then Host l else Host o)
               (Path o) (RawQuery o) (Fragment o)))
            (LastCrawled outlink) /\
    (Scheme o <> "" -> Host o <> "" -> inherited l outlink = outlink).
Proof.
  intros body outlinks evs. split.
  - subst evs.
    destruct (process_response_html link l fetched resp now Hlink Hhtml Hread)
      as (tail & -> & Htail).
    rewrite stored_outlinks_html by done.
    rewrite <- list_fmap_compose. done.
  - intros outlink o _ Ho. unfold inherited. rewrite Ho. simpl.
    rewrite inherit_fields. split; [done|].
    intros Hs Hh. apply String.eqb_neq in Hs, Hh. rewrite Hs, Hh.
    destruct outlink as [emb lc]. simpl in *. subst emb.
    by destruct o.
Qed.

(** C3, as the code has it. For every response processed as HTML whose
    body is read without error, the fetcher reads the whole body,
    whatever [MaxHTTPContentSizeBytes] is; the whole body is what link
    extraction runs on and what the handler is given. *)
Theorem html_body_is_read_whole
  (link : URL) (l : url_URL) (fetched : Time) (resp : Response) (now : nat)
  (Hlink : URL_ link = Some l)
  (Hhtml : isHTML (Some resp) = true)
  (Hread : read_err (RespBody resp) = None) :
  let body := unread (RespBody resp) in
  let evs := (process_response lib Config world link
                (mkFetchResults link None None fetched false) resp now).2 in
  stored_outlinks evs
  = map (fun o => (inherited l o, buffered link fetched resp body))
        (getLinks lib Config body).1 /\
  handled evs = [buffered link fetched resp body] /\
  (RespBody <$> fr_Response (buffered link fetched resp body))
  = Some (mkBody (unread (RespBody resp)) None).
Proof.
  intros body evs. subst evs.
  destruct (process_response_html link l fetched resp now Hlink Hhtml Hread)
    as (tail & -> & Htail).
  by rewrite stored_outlinks_html, handled_html.
Qed.

(** C4. For a URL of the segment that the robots rules disallow, the
    fetcher issues no HTTP request and does not sleep: the one thing it
    does is to store a fetch result with [ExcludedByRobots = true]
    through [StoreURLFetchResults], and it then goes on with the next
    URL. *)
Theorem robots_excluded_link_is_only_recorded
  (f : fetcher) (g : Group) (link : URL) (l : url_URL)
  (rest : list URL) (now : nat)
  (Hrobots : robots f = Some g)
  (Hlink : URL_ link = Some l)
  (Hdisallow : Test g (url_String lib l) = false) :
  let record :=
    EvStoreURLFetchResults (mkFetchResults link None None zeroTime true) in
  process_link lib Config world f link now = (Val (), [record]) /\
  crawl_links lib Config world f (link :: rest) now
  = ((crawl_links lib Config world f rest (S now)).1,
     record :: (crawl_links lib Config world f rest (S now)).2).
Proof.
  assert (process_link lib Config world f link now
          = (Val (), [EvStoreURLFetchResults
                        (mkFetchResults link None None zeroTime true)]))
    as Hrun.
  { unfold process_link, URL_String, deref. rewrite Hrobots, Hlink. run.
    by rewrite Hdisallow. }
  split; [done|].
  cbn [crawl_links]. by erewrite bind_val by done.
Qed.

(** **** The events of the loop over the links *)

Lemma fetch_run (u : URL) (x : url_URL) (now : nat) :
  URL_ u = Some x ->
  fetch lib Config world u now
  = match http_NewRequest lib "GET" (url_String lib x) with
    | Err err =>
        (Val (Err ("Failed to create new request object for "
                   +:+ url_String lib x +:+ "): " +:+ err)), [])
    | Ok req =>
        let req := Header_Set "User-Agent" (UserAgent Config) req in
        (Val (http_Do world now req), [EvHttpDo req])
    end.
Proof.
  intros Hu. unfold fetch, URL_String, deref. rewrite Hu. run.
  by destruct (http_NewRequest lib "GET" (url_String lib x)).
Qed.

Lemma fetch_events (f : fetcher) (u : URL) (now : nat) :
  Forall (link_event f) (fetch lib Config world u now).2.
Proof.
  unfold fetch, URL_String, deref.
  destruct (URL_ u) as [x|]; run; [|by constructor].
  destruct (http_NewRequest lib "GET" (url_String lib x)); run;
    by repeat constructor.
Qed.

Lemma store_outlinks_events (P : Event -> Prop) link fr outlinks now :
  (forall u, P (EvStoreParsedURL u fr)) ->
  Forall P (store_outlinks link fr outlinks now).2.
Proof.
  intros HP. revert now. induction outlinks as [|outlink outlinks IH]; intros now.
  - by constructor.
  - cbn [store_outlinks]. apply Forall_bind; [|by intros].
    unfold store_outlink, deref.
    destruct (URL_ outlink) as [o|]; run; [|by constructor].
    destruct (String.eqb (Scheme o) ""), (URL_ link) as [l|]; run;
      try (by constructor);
      match goal with |- context [String.eqb (Host ?x) ""] =>
        destruct (String.eqb (Host x) "") end; run;
      by repeat constructor.
Qed.

(** The events of the loop body once a response is fetched, for a
    property that holds of the events it can emit. *)
Lemma process_response_events (P : Event -> Prop) link fr resp now :
  (forall u fr', P (EvStoreParsedURL u fr')) ->
  (forall fr', P (EvHandleResponse fr')) ->
  (forall fr', P (EvStoreURLFetchResults fr')) ->
  Forall P (process_response lib Config world link fr resp now).2.
Proof.
  intros Hparsed Hhandle Hstore.
  assert (forall fr' now', Forall P (handle_and_store world fr' now').2) as Hhs.
  { intros fr' now'. rewrite handle_and_store_run.
    destruct (Handler_HandleResponse world now' fr'); by repeat constructor. }
  unfold process_response, ioutil_ReadAll.
  destruct (isHTML _); [|by apply Hhs].
  destruct (read_err (RespBody resp)) as [e|].
  - run. by repeat constructor.
  - apply Forall_bind; [|intros; by apply Hhs].
    destruct (getLinks lib Config _) as [outlinks [e|]].
    + by constructor.
    + by apply store_outlinks_events.
Qed.

(** Without a robots group every link takes the path of an allowed
    one. *)
Lemma process_link_no_robots (f : fetcher) (link : URL) (now : nat) :
  robots f = None ->
  process_link lib Config world f link now
  = fetch_and_process lib Config world f link
      (mkFetchResults link None None zeroTime false) now.
Proof.
  intros Hr. unfold process_link. rewrite Hr, bind_run.
  unfold mret, M_ret. cbn [length Nat.add app].
  by destruct (fetch_and_process _ _ _ _ _ _ _).
Qed.

(** The path of an allowed link: a sleep of the crawl delay, the events
    of [fetch], which are no event or the one request, then events that
    are neither sleeps nor requests. *)
Lemma fetch_and_process_shape (f : fetcher) (link : URL) fr (now : nat) :
  exists rest,
    (fetch_and_process lib Config world f link fr now).2
    = EvSleep (crawldelay f)
      :: (fetch lib Config world link (S now)).2 ++ rest /\
    Forall quiet rest.
Proof.
  unfold fetch_and_process. rewrite bind_run.
  cbn [emit length Nat.add]. rewrite bind_run. cbn [observe length Nat.add].
  rewrite bind_run.
  destruct (fetch lib Config world link (S now)) as [[[resp|err]|msg|] evs]
    eqn:Hfetch; cbn [snd app].
  - pose proof (process_response_events quiet link
                  (set_FetchTime (time_Now world (S now)) fr) resp
                  (length evs + S now)%nat
                  ltac:(done) ltac:(done) ltac:(done)) as Hquiet.
    destruct (process_response _ _ _ _ _ _ _) as [o rest].
    by exists rest.
  - eexists. unfold emit. cbn [snd]. split; [reflexivity|].
    by repeat constructor.
  - exists []. cbn [snd]. by rewrite app_nil_r.
  - exists []. cbn [snd]. by rewrite app_nil_r.
Qed.

Lemma fetch_and_process_events (f : fetcher) link fr now :
  Forall (link_event f) (fetch_and_process lib Config world f link fr now).2.
Proof.
  unfold fetch_and_process.
  apply Forall_bind; [by repeat constructor|]. intros _ now1.
  apply Forall_bind; [by constructor|]. intros t now2.
  apply Forall_bind; [apply fetch_events|]. intros [resp|err] now3.
  - by apply process_response_events.
  - by repeat constructor.
Qed.

Lemma process_link_events (f : fetcher) (link : URL) (now : nat) :
  Forall (link_event f) (process_link lib Config world f link now).2.
Proof.
  destruct (robots f) as [g|] eqn:Hr.
  - unfold process_link. rewrite Hr, bind_run.
    unfold URL_String, deref.
    destruct (URL_ link) as [l|]; run; [|by constructor].
    destruct (Test g (url_String lib l)); simpl.
    + pose proof (fetch_and_process_events f link
                    (mkFetchResults link None None zeroTime false) now).
      by destruct (fetch_and_process _ _ _ _ _ _ _).
    + by repeat constructor.
  - rewrite process_link_no_robots by done.
    by apply fetch_and_process_events.
Qed.

Lemma crawl_links_events (f : fetcher) (links : list URL) (now : nat) :
  Forall (link_event f) (crawl_links lib Config world f links now).2.
Proof.
  revert now. induction links as [|link links IH]; intros now.
  - by constructor.
  - cbn [crawl_links]. apply Forall_bind; [apply process_link_events|].
    by intros.
Qed.


Lemma fetchRobots_run (h : string) (now : nat) :
  exists o, (fetchRobots lib Config world h now).1 = Val o /\
    Forall (fun e => exists req, e = EvHttpDo req)
           (fetchRobots lib Config world h now).2.
Proof.
  unfold fetchRobots, fetch, URL_String, deref, robots_url. run.
  destruct (http_NewRequest lib "GET" _); run.
  - destruct (http_Do world now _); run.
    + destruct (robotstxt_FromResponse lib _); run;
        eexists; split; try done; repeat constructor; by eexists.
    + eexists; split; try done; repeat constructor; by eexists.
  - eexists; split; try done; constructor.
Qed.


(** The events of one claimed host: the fetch of robots.txt, the call
    of [LinksForHost], then the loop over the links. *)
Lemma crawl_host_run (h : string) (now : nat) :
  exists (o : option Group) (evs0 : list Event),
    fetchRobots lib Config world h now = (Val o, evs0) /\
    Forall (fun e => exists req, e = EvHttpDo req) evs0 /\
    let f := mkFetcher h o (crawldelay_for Config o) in
    let now1 := (length evs0 + now)%nat in
    let links := LinksForHost world now1 h in
    (crawl_host lib Config world h now).2
    = evs0 ++ EvLinksForHost h
           :: (crawl_links lib Config world f links (S now1)).2 /\
    forall f', (crawl_host lib Config world h now).1 = Val f' -> f' = f.
Proof.
  destruct (fetchRobots_run h now) as (o & Ho & Hevs).
  destruct (fetchRobots lib Config world h now) as [o' evs0] eqn:Hfr.
  simpl in Ho, Hevs. subst o'.
  exists o, evs0. split; [done|]. split; [done|].
  intros f now1 links. unfold crawl_host.
  erewrite bind_val by done. cbn [fst snd].
  unfold call. rewrite !bind_run. fold now1. fold links. fold f.
  cbn [length Nat.add app].
  destruct (crawl_links lib Config world f links (S now1))
    as [[[]|msg|] evs] eqn:Hcl; run;
    rewrite ?app_nil_r; (split; [done|]); by intros f' [= <-].
Qed.



Lemma wrap64_small (z : Z) : - 2 ^ 63 <= z < 2 ^ 63 -> wrap64 z = z.
Proof.
  intros Hz. unfold wrap64.
  rewrite Z.mod_small by lia. lia.
Qed.

(** **** Sleeps and requests *)

Lemma sleeps_before_app (d : Duration) (evs1 evs2 : list Event) :
  sleeps_before_each_request d evs1 ->
  sleeps_before_each_request d evs2 ->
  sleeps_before_each_request d (evs1 ++ evs2).
Proof.
  intros [Hreq1 Hsleep1] [Hreq2 Hsleep2]. split.
  - intros i req Hi. apply lookup_app_Some in Hi as [Hi|[Hlen Hi]].
    + destruct (Hreq1 _ _ Hi) as (j & -> & Hj). exists j. split; [done|].
      by apply lookup_app_l_Some.
    + destruct (Hreq2 _ _ Hi) as (j & Hij & Hj).
      exists (length evs1 + j)%nat. split; [lia|].
      by rewrite lookup_app_r, Nat.add_comm, Nat.add_sub by lia.
  - intros d' Hin. apply elem_of_app in Hin as [Hin|Hin]; auto.
Qed.

Lemma sleeps_before_quiet (d : Duration) (evs : list Event) :
  Forall quiet evs -> sleeps_before_each_request d evs.
Proof.
  intros Hq. rewrite Forall_forall in Hq. split.
  - intros i req Hi. apply list_elem_of_lookup_2 in Hi. by apply Hq in Hi.
  - intros d' Hin. by apply Hq in Hin.
Qed.

Lemma sleeps_before_fetch (d : Duration) (u : URL) (now : nat) :
  sleeps_before_each_request d
    (EvSleep d :: (fetch lib Config world u now).2).
Proof.
  unfold fetch, URL_String, deref.
  destruct (URL_ u) as [x|]; run.
  - destruct (http_NewRequest lib "GET" (url_String lib x)); run.
    + split.
      * intros [|[|i]] req Hi; try done. by exists 0%nat.
      * intros d' Hin. rewrite !elem_of_cons, elem_of_nil in Hin.
        destruct Hin as [[= ->]|[|]]; done.
    + split.
      * by intros [|i] req Hi.
      * intros d' Hin. rewrite !elem_of_cons, elem_of_nil in Hin.
        destruct Hin as [[= ->]|]; done.
  - split.
    + by intros [|i] req Hi.
    + intros d' Hin. rewrite !elem_of_cons, elem_of_nil in Hin.
      destruct Hin as [[= ->]|]; done.
Qed.

Lemma sleeps_before_crawl_links (f : fetcher) (links : list URL) (now : nat) :
  sleeps_before_each_request (crawldelay f)
    (crawl_links lib Config world f links now).2.
Proof.
  assert (forall link fr now',
            sleeps_before_each_request (crawldelay f)
              (fetch_and_process lib Config world f link fr now').2) as Hfp.
  { intros link fr now'.
    destruct (fetch_and_process_shape f link fr now') as (rest & -> & Hrest).
    rewrite app_comm_cons. apply sleeps_before_app.
    - apply sleeps_before_fetch.
    - by apply sleeps_before_quiet. }
  revert now. induction links as [|link links IH]; intros now.
  - by apply sleeps_before_quiet.
  - cbn [crawl_links]. rewrite bind_run.
    assert (sleeps_before_each_request (crawldelay f)
              (process_link lib Config world f link now).2) as Hlink.
    { destruct (robots f) as [g|] eqn:Hr.
      - unfold process_link. rewrite Hr, bind_run.
        unfold URL_String, deref.
        destruct (URL_ link) as [l|]; run;
          [|by apply sleeps_before_quiet].
        destruct (Test g (url_String lib l)); simpl.
        + specialize (Hfp link (mkFetchResults link None None zeroTime false)
                          now).
          by destruct (fetch_and_process _ _ _ _ _ _ _).
        + apply sleeps_before_quiet. by repeat constructor.
      - rewrite process_link_no_robots by done. apply Hfp. }
    destruct (process_link lib Config world f link now) as [[[]|msg|] evs];
      [|done|done].
    specialize (IH (length evs + now)%nat).
    destruct (crawl_links lib Config world f links (length evs + now)%nat).
    by apply sleeps_before_app.
Qed.

(** C1, as the code has it. For every claimed host whose robots
    crawl-delay is absent, zero, or at least [DefaultCrawlDelay]
    seconds, [DefaultCrawlDelay] being a number of seconds that is not
    negative and fits a [time.Duration]: the crawl delay of the fetcher
    is the larger of the robots crawl-delay and [DefaultCrawlDelay]
    seconds, with no cap; over the links of the host the fetcher sleeps
    that delay right before each request it sends, and sleeps no other
    delay. *)
Theorem crawl_delay_is_max_of_robots_and_default
  (h : string) (now : nat) (robots : option Group) (evs0 : list Event)
  (Hhost : fetchRobots lib Config world h now = (Val robots, evs0))
  (Hdefault : 0 <= DefaultCrawlDelay Config)
  (Hfits : DefaultCrawlDelay Config * Second < 2 ^ 63)
  (Hrobots : robots_delay robots <= 0
             \/ DefaultCrawlDelay Config * Second <= robots_delay robots) :
  let d := Z.max (robots_delay robots) (DefaultCrawlDelay Config * Second) in
  let now1 := (length evs0 + now)%nat in
  let over_the_links :=
    (crawl_links lib Config world (mkFetcher h robots d)
       (LinksForHost world now1 h) (S now1)).2 in
  crawldelay_for Config robots = d /\
  (forall f, (crawl_host lib Config world h now).1 = Val f ->
     crawldelay f = d) /\
  (crawl_host lib Config world h now).2
  = evs0 ++ EvLinksForHost h :: over_the_links /\
  sleeps_before_each_request d over_the_links.
Proof.
  intros d now1 over_the_links.
  assert (crawldelay_for Config robots = d) as Hdelay.
  { subst d. unfold crawldelay_for, robots_delay in *.
    assert (Second = 1000000000) as HS by reflexivity.
    rewrite wrap64_small by lia.
    destruct robots as [g|]; [|lia].
    destruct (Z.ltb_spec (DefaultCrawlDelay Config) (CrawlDelay g)); lia. }
  destruct (crawl_host_run h now) as (o & evs0' & Hrun & _ & Hevs & Hret).
  rewrite Hhost in Hrun. injection Hrun as <- <-.
  cbv zeta in Hevs, Hret. rewrite Hdelay in Hevs, Hret.
  split; [done|]. split; [|split].
  - intros f Hf. by rewrite (Hret f Hf).
  - exact Hevs.
  - apply (sleeps_before_crawl_links (mkFetcher h robots d)).
Qed.

(** The loop over the links never receives from [f.quit]. *)
Lemma crawl_links_never_polls (f : fetcher) (links : list URL) (now : nat)
  (received : bool) :
  EvPollQuit received ∉ (crawl_links lib Config world f links now).2.
Proof.
  intros Hin.
  pose proof (crawl_links_events f links now) as Hall.
  rewrite Forall_forall in Hall. exact (Hall _ Hin).
Qed.

End Crawl.

(** *** Runs in the example world *)

Section Runs.
Import Example.

Lemma ParseURL_of_a_bad_reference :
  ParseURL lib ":bad"
  = (Some (mkURL None (time_Unix 0 0)),
     Some "parse :bad: missing protocol scheme").
Proof. reflexivity. Qed.

Lemma getLinks_returns_document_hrefs_witness :
  getLinks lib config (bytes home_page)
  = ([mkURL (Some (mk_url "" "" None "" "/next" "" "")) NotYetCrawled;
      mkURL (Some (mk_url "http" "" None "other.org" "/" "" "")) NotYetCrawled],
     None).
Proof.
  apply (getLinks_returns_document_hrefs lib config
           (bytes home_page) (bytes home_page)).
  reflexivity.
Defined.

Lemma outlinks_inherit_scheme_and_host_witness :
  (stored_outlinks
     (process_response lib config (world "") home
        (mkFetchResults home None None fetched false)
        (respond "text/html" home_page) 6%nat).2).*1
  = [mkURL (Some (mk_url "http" "" None "test.com" "/next" "" "")) NotYetCrawled;
     mkURL (Some (mk_url "http" "" None "other.org" "/" "" "")) NotYetCrawled].
Proof.
  apply (outlinks_inherit_scheme_and_host lib config (world "") home
           home_url fetched
           (respond "text/html" home_page) 6%nat);
    reflexivity.
Defined.

Lemma html_body_is_read_whole_witness :
  handled
    (process_response lib small_cap (world "") home
       (mkFetchResults home None None fetched false)
       (respond "text/html" home_page) 6%nat).2
  = [buffered home fetched (respond "text/html" home_page) (bytes home_page)].
Proof.
  apply (html_body_is_read_whole lib small_cap (world "") home home_url
           fetched
           (respond "text/html" home_page) 6%nat);
    reflexivity.
Defined.

(** C3 fails as stated: with [MaxHTTPContentSizeBytes = 16] the handler
    is given all the 103 bytes of a page served as HTML. *)
Lemma html_body_exceeds_cap :
  exists fr resp,
    handled
      (process_response lib small_cap (world "") home
         (mkFetchResults home None None fetched false)
         (respond "text/html" home_page) 6%nat).2 = [fr] /\
    fr_Response fr = Some resp /\
    MaxHTTPContentSizeBytes small_cap = 16 /\
    Z.of_nat (length (unread (RespBody resp))) = 103.
Proof.
  eexists. eexists. split; [vm_compute; reflexivity|].
  split; [reflexivity|]. split; reflexivity.
Qed.

Lemma robots_excluded_link_is_only_recorded_witness :
  process_link lib config (world "Disallow: /private/") guarded private 10%nat
  = (Val (),
     [EvStoreURLFetchResults (mkFetchResults private None None zeroTime true)]).
Proof.
  apply (robots_excluded_link_is_only_recorded lib config
           (world "Disallow: /private/") guarded nothing_private private
           (mk_url "http" "" None "test.com" "/private/y" "" "") [] 10%nat);
    reflexivity.
Defined.


Lemma crawl_delay_is_max_of_robots_and_default_witness :
  let slow := world "Crawl-delay: 600" in
  let over_the_links :=
    (crawl_links lib config slow
       (mkFetcher "test.com" (Some ten_minutes) (600 * Second))
       segment 4%nat).2 in
  crawldelay_for config (Some ten_minutes) = 600 * Second /\
  (forall f, (crawl_host lib config slow "test.com" 2%nat).1 = Val f ->
     crawldelay f = 600 * Second) /\
  (crawl_host lib config slow "test.com" 2%nat).2
  = (fetchRobots lib config slow "test.com" 2%nat).2
    ++ EvLinksForHost "test.com" :: over_the_links /\
  sleeps_before_each_request (600 * Second) over_the_links.
Proof.
  apply (crawl_delay_is_max_of_robots_and_default lib config
           (world "Crawl-delay: 600") "test.com" 2%nat (Some ten_minutes)
           (fetchRobots lib config (world "Crawl-delay: 600") "test.com"
              2%nat).2).
  - reflexivity.
  - vm_compute. discriminate.
  - reflexivity.
  - right. vm_compute. discriminate.
Defined.

(** C1 fails as stated: robots.txt asks for ten minutes,
    [MaxCrawlDelay] is five, and the fetcher sleeps ten minutes before
    the first fetch of the host. *)
Lemma crawl_delay_exceeds_MaxCrawlDelay :
  let d := crawldelay_for config (Some ten_minutes) in
  d <> described_crawl_delay (CrawlDelay ten_minutes)
         (DefaultCrawlDelay config * Second) MaxCrawlDelay /\
  MaxCrawlDelay < d /\
  (crawl_host lib config (world "Crawl-delay: 600") "test.com" 2%nat).2
    !! 2%nat = Some (EvSleep d).
Proof.
  split; [by vm_compute|]. split; reflexivity.
Qed.

(** The comparison of line 170 takes the nanoseconds of the robots delay
    against the seconds of the default one: a robots delay of half a
    second replaces a default delay of one second. *)
Lemma crawl_delay_below_default :
  crawldelay_for config (Some half_a_second) = 500 * Millisecond /\
  DefaultCrawlDelay config * Second = 1000 * Millisecond.
Proof. split; reflexivity. Qed.

(** What the loop over the links does is the same whether [stop] has been
    called or not. *)
Lemma crawl_links_ignores_quit
  (lib : Library) (Config : FetcherConfig) (w : World) (quit : nat -> bool)
  (f : fetcher) (links : list URL) (now : nat) :
  crawl_links lib Config (with_quit quit w) f links now
  = crawl_links lib Config w f links now.
Proof.
  revert now. induction links as [|l links IH]; intros now; [done|].
  cbn [crawl_links]. rewrite !bind_run.
  change (process_link lib Config (with_quit quit w) f l now)
    with (process_link lib Config w f l now).
  destruct (process_link lib Config w f l now) as [[[]|msg|] evs]; [|done|done].
  by rewrite IH.
Qed.

(** C2 fails on the code: [stop] is called while the first link of the
    segment of test.com is being fetched, at instant 5.  The fetcher
    still fetches the two other links, and receives from [f.quit] only
    once the segment is done. *)
Theorem start_fetches_after_quit_signaled :
  let run := start lib config (world "") 3 idle 0%nat in
  run.1 = Val () /\
  quit_signaled (world "") 5%nat = true /\
  map describe run.2
  = [ "quit: none"; "ClaimNewHost: test.com";
      "GET http://test.com/robots.txt"; "LinksForHost test.com";
      "Sleep"; "GET http://test.com/";
      "StoreParsedURL http://test.com/next";
      "StoreParsedURL http://other.org/";
      "HandleResponse http://test.com/";
      "StoreURLFetchResults http://test.com/";
      "Sleep"; "GET http://test.com/private/y";
      "StoreURLFetchResults http://test.com/private/y";
      "Sleep"; "GET http://test.com/next";
      "HandleResponse http://test.com/next";
      "StoreURLFetchResults http://test.com/next";
      "UnclaimHost test.com"; "quit: received"; "done" ].
Proof.
  split; [reflexivity|]. split; [reflexivity|]. vm_compute. reflexivity.
Qed.

End Runs.

End WalkerFacts.


(** ** Properties of package [walker], file config.go *)

Module ConfigFacts.
Import ConfigFile.

Section Floats.

Lemma SFcompare_antisym (x y : float64) :
  SFcompare y x = option_map CompOpp (SFcompare x y).
Proof.
  destruct x as [sx|sx| |sx mx ex], y as [sy|sy| |sy my ey]; simpl;
    try reflexivity; try (by destruct sx); try (by destruct sy);
    try (by destruct sx, sy).
  destruct sx, sy; simpl; try reflexivity; f_equal.
  - rewrite (Z.compare_antisym ex ey).
    destruct (ex ?= ey); simpl; try reflexivity.
    rewrite (Pos.compare_cont_antisym mx my Eq). simpl.
    by destruct (Pos.compare_cont Eq mx my).
  - rewrite (Z.compare_antisym ex ey).
    destruct (ex ?= ey); simpl; try reflexivity.
    by rewrite (Pos.compare_cont_antisym mx my Eq).
Qed.

Lemma SFcompare_number (x y : float64) :
  x <> S754_nan -> y <> S754_nan -> is_Some (SFcompare x y).
Proof.
  intros Hx Hy.
  destruct x as [sx|sx| |sx mx ex], y as [sy|sy| |sy my ey]; simpl; try done.
Qed.

(** For numbers, [not (x < y)] is [y <= x]; a NaN is neither. *)
Lemma SFltb_false_iff_SFleb (x y : float64) :
  x <> S754_nan -> y <> S754_nan ->
  SFltb x y = false <-> SFleb y x = true.
Proof.
  intros Hx Hy. unfold SFltb, SFleb. rewrite (SFcompare_antisym x y).
  destruct (SFcompare_number x y Hx Hy) as [c ->]. simpl.
  by destruct c.
Qed.

End Floats.

Section Load.

Variable sys : System.

Lemma append_if_nil (cond : bool) (msg : string) (errs : list string) :
  append_if cond msg errs = [] <-> cond = false /\ errs = [].
Proof.
  unfold append_if. destruct cond.
  - split; [|by intros [? _]]. intros H. by apply app_eq_nil in H as [_ ?].
  - split; [by intros ->|by intros [_ ->]].
Qed.

Lemma append_err_nil (err : error) (msg : string -> string) (errs : list string) :
  append_err err msg errs = [] <-> err = None /\ errs = [].
Proof.
  unfold append_err. destruct err as [e|].
  - split; [|by intros [? _]]. intros H. by apply app_eq_nil in H as [_ ?].
  - split; [by intros ->|by intros [_ ->]].
Qed.

Lemma assertConfigInvariants_nil (c : WalkerConfig) :
  assertConfigInvariants sys c = None <-> checks_pass sys c.
Proof.
  unfold assertConfigInvariants.
  match goal with |- context [length ?l] => set (errs := l) end.
  assert (errs = [] <-> checks_pass sys c) as <-.
  { subst errs.
    rewrite !append_if_nil, !append_err_nil, !append_if_nil.
    rewrite orb_false_iff, !Z.ltb_ge. unfold parses.
    split.
    - intros (? & ? & ? & ? & ? & ? & ? & ? & ? & ? & [? ?] & _).
      constructor; tauto.
    - intros [? ? ?]. tauto. }
  destruct errs; simpl; split; congruence.
Qed.

Lemma checks_pass_iff_load_invariants (c : WalkerConfig) :
  RefreshPercentage (Dispatcher c) <> S754_nan ->
  checks_pass sys c <-> load_invariants sys c.
Proof.
  intros Hnum.
  assert (float64_of_Z 0 <> S754_nan) as H0 by done.
  assert (float64_of_Z 100 <> S754_nan) as H100 by (by vm_compute).
  pose proof (SFltb_false_iff_SFleb _ _ Hnum H0) as Hlo.
  pose proof (SFltb_false_iff_SFleb _ _ H100 Hnum) as Hhi.
  split.
  - intros [? ? ?]. constructor; tauto.
  - intros [? ? ? ? ? ?]. constructor; tauto.
Qed.

(** C6, as the code has it. Loading a configuration returns an error if
    and only if the file cannot be read, or is not the YAML of a
    configuration, or an invariant validated at load is violated:
    refresh_percentage outside [0, 100], max_links_per_segment below 1,
    num_concurrent_domains below 1, default_crawl_delay above
    max_crawl_delay, a duration that fails to parse, an include or exclude
    pattern list that fails to compile.  When loading returns no error all
    these invariants hold of the resulting [Config].  This is for a
    refresh_percentage that is a number, and a load that does not panic in
    [PostConfigHooks]. *)
Theorem readConfig_error_iff
  (ConfigName : string) (Config : WalkerConfig) (r : ending)
  (Hload : readConfig sys ConfigName = (Config, r))
  (Hhooks : forall msg, r <> Panics msg)
  (Hnumber : RefreshPercentage (Dispatcher Config) <> S754_nan) :
  ((exists err, r = Returns (Some err)) <->
   unreadable sys ConfigName \/ malformed sys ConfigName
   \/ ~ load_invariants sys Config) /\
  (r = Returns None -> load_invariants sys Config).
Proof.
  revert Hload. unfold readConfig, unreadable, malformed.
  destruct (ioutil_ReadFile sys ConfigName) as [data|e]; simpl.
  - destruct (yaml_Unmarshal sys data _) as [c [e|]]; simpl.
    + intros [= <- <-]. split; [|done]. split; [|by eexists].
      intros _. right; left. by eexists.
    + unfold PostConfigHooks.
      destruct (setupParseURL sys _) as [msg|];
        intros [= <- <-]; [by destruct (Hhooks msg)|].
      match goal with |- context [assertConfigInvariants sys ?c'] =>
        set (loaded := c') in * end.
      pose proof (assertConfigInvariants_nil loaded) as Hnil.
      pose proof (checks_pass_iff_load_invariants loaded Hnumber) as Hinv.
      destruct (assertConfigInvariants sys loaded) as [e|].
      * assert (~ load_invariants sys loaded) as Hviolated.
        { intros H. apply Hinv, Hnil in H. done. }
        split; [|done]. split; [tauto|]. intros _. by eexists.
      * assert (load_invariants sys loaded) as Hholds by (by apply Hinv, Hnil).
        split; [|done]. split.
        -- by intros [err [=]].
        -- intros [[? [=]]|[[? [=]]|?]]. done.
  - intros [= <- <-]. split; [|done]. split; [|by eexists].
    intros _. left. by eexists.
Qed.

End Load.

Section Loads.
Import ConfigExample.

Lemma defaults_hold : load_invariants sys (set_sequences [] [] [] [] [] SetDefaultConfig).
Proof. constructor; repeat split; by vm_compute. Qed.

Lemma quick_yaml_loads :
  (readConfig sys "quick.yaml").2 = Returns None /\
  DefaultCrawlDelay (readConfig sys "quick.yaml").1 = "2s" /\
  IgnoreTags (readConfig sys "quick.yaml").1 = ["script"; "img"; "link"].
Proof. repeat split; reflexivity. Qed.

Lemma slow_yaml_is_rejected :
  (readConfig sys "slow.yaml").2
  = Returns (Some ("Config Error:" +:+ newline +:+ tab
                   +:+ "Consistency problem: MaxCrawlDelay > DefaultCrawlDealy"
                   +:+ newline +:+ newline)).
Proof. reflexivity. Qed.

Lemma notes_txt_is_rejected :
  (readConfig sys "notes.txt").2
  = Returns (Some ("Failed to unmarshal yaml from config file (notes.txt): "
                   +:+ "yaml: did not find expected node content")).
Proof. reflexivity. Qed.

Lemma readConfig_error_iff_witness :
  (exists err, (readConfig sys "slow.yaml").2 = Returns (Some err)) <->
  unreadable sys "slow.yaml" \/ malformed sys "slow.yaml"
  \/ ~ load_invariants sys (readConfig sys "slow.yaml").1.
Proof.
  apply (readConfig_error_iff sys "slow.yaml"
           (readConfig sys "slow.yaml").1 (readConfig sys "slow.yaml").2).
  - reflexivity.
  - intros msg. vm_compute. discriminate.
  - vm_compute. discriminate.
Defined.

(** C6 fails as stated.  walker.yaml is missing: loading returns an error
    though the configuration, the default one, violates no invariant.
    And nan.yaml sets refresh_percentage to NaN: loading returns no error
    though NaN is not within [0, 100]. *)
Lemma readConfig_error_is_not_violation :
  (exists err, (readConfig sys "walker.yaml").2 = Returns (Some err)) /\
  load_invariants sys (readConfig sys "walker.yaml").1 /\
  (readConfig sys "nan.yaml").2 = Returns None /\
  ~ load_invariants sys (readConfig sys "nan.yaml").1.
Proof.
  split; [by eexists|]. split; [apply defaults_hold|]. split; [reflexivity|].
  intros [[H _] _ _ _ _ _]. revert H. by vm_compute.
Qed.

End Loads.

End ConfigFacts.

(** ** Properties of the dispatcher *)

Module DispatcherFacts.
Import Dispatcher.

Section Cycle.

Variable cfg : Settings.
Variable now : Z.

Lemma filter_none {A} (f : A -> bool) (l : list A) :
  Forall (fun x => f x = false) l -> List.filter f l = [].
Proof.
  induction 1 as [|x l Hx _ IH]; [done|]. simpl. by rewrite Hx.
Qed.

(** A domain with no links, or whose links were all last crawled less
    than [MinLinkRefreshTime] ago and are not marked getnow, has an empty
    segment. *)
Lemma young_links_give_empty_segment (rows : list LinkRow) :
  Forall (young cfg now) (latest rows) -> select_segment cfg now rows = [].
Proof.
  intros Hyoung.
  assert (List.filter is_getnow (latest rows) = []) as Hgetnow.
  { apply filter_none. eapply Forall_impl; [exact Hyoung|].
    by intros r (Hget & _). }
  assert (List.filter (is_refreshable cfg now) (latest rows) = []) as Hrefresh.
  { apply filter_none. eapply Forall_impl; [exact Hyoung|].
    intros r (Hget & _ & Hage). unfold is_refreshable.
    apply andb_false_iff. right. by apply Z.leb_gt. }
  assert (List.filter is_uncrawled (latest rows) = []) as Huncrawled.
  { apply filter_none. eapply Forall_impl; [exact Hyoung|].
    intros r (Hget & Hcrawled & _). unfold is_uncrawled.
    apply andb_false_iff. right. by apply Z.eqb_neq. }
  unfold select_segment. rewrite Hgetnow, Hrefresh, Huncrawled.
  change (merge_sort oldest_first []) with (@nil LinkRow).
  change (merge_sort by_url []) with (@nil LinkRow).
  by rewrite !take_nil.
Qed.

Lemma dispatch_domain_links (st : Store) (d : string) :
  links (dispatch_domain cfg now st d) = links st.
Proof.
  unfold dispatch_domain. destruct (domain_info st !! d) as [di|]; [|done].
  destruct (excluded di || dispatched di); [done|].
  by destruct (select_segment cfg now (domain_links st d)).
Qed.

Lemma dispatch_domain_other (st : Store) (d d' : string) :
  d <> d' ->
  segments (dispatch_domain cfg now st d') !! d = segments st !! d /\
  domain_info (dispatch_domain cfg now st d') !! d = domain_info st !! d.
Proof.
  intros Hne. unfold dispatch_domain.
  destruct (domain_info st !! d') as [di|]; [|done].
  destruct (excluded di || dispatched di); [done|].
  destruct (select_segment cfg now (domain_links st d')); simpl;
    by rewrite ?lookup_insert_ne.
Qed.

Lemma dispatch_domain_empty (st : Store) (d : string) (di : DomainInfo) :
  domain_info st !! d = Some di ->
  dispatched di = false ->
  select_segment cfg now (domain_links st d) = [] ->
  segments (dispatch_domain cfg now st d) !! d = segments st !! d /\
  exists di', domain_info (dispatch_domain cfg now st d) !! d = Some di' /\
              dispatched di' = false.
Proof.
  intros Hdi Hidle Hempty. unfold dispatch_domain. rewrite Hdi, Hempty.
  destruct (excluded di || dispatched di); [by eauto|]. simpl.
  split; [done|]. rewrite lookup_insert_eq. by eauto.
Qed.

Lemma left_idle_step (st0 st : Store) (d d' : string) :
  select_segment cfg now (domain_links st0 d) = [] ->
  left_idle st0 d st -> left_idle st0 d (dispatch_domain cfg now st d').
Proof.
  intros Hempty (Hlinks & Hseg & di & Hdi & Hidle).
  split; [by rewrite dispatch_domain_links|].
  destruct (decide (d = d')) as [<-|Hne].
  - assert (domain_links st d = domain_links st0 d) as Hsame
      by (unfold domain_links; by rewrite Hlinks).
    rewrite <- Hsame in Hempty.
    destruct (dispatch_domain_empty st d di Hdi Hidle Hempty) as [Hs Hd].
    split; [congruence|done].
  - destruct (dispatch_domain_other st d d' Hne) as [-> ->]. by eauto.
Qed.

Lemma left_idle_foldl (st0 st : Store) (d : string) (ds : list string) :
  select_segment cfg now (domain_links st0 d) = [] ->
  left_idle st0 d st -> left_idle st0 d (foldl (dispatch_domain cfg now) st ds).
Proof.
  intros Hempty. revert st.
  induction ds as [|d' ds IH]; intros st Hst; [done|].
  simpl. by apply IH, left_idle_step.
Qed.

(** C9. For every domain whose computed segment is empty in a dispatch
    cycle, the dispatcher writes no segment rows for the domain and its
    [dispatched] flag is still false after the cycle. *)
Theorem empty_segment_is_not_dispatched
  (st : Store) (d : string) (di : DomainInfo)
  (Hdomain : domain_info st !! d = Some di)
  (Hidle : dispatched di = false)
  (Hempty : select_segment cfg now (domain_links st d) = []) :
  segments (dispatch_cycle cfg now st) !! d = segments st !! d /\
  exists di', domain_info (dispatch_cycle cfg now st) !! d = Some di' /\
              dispatched di' = false.
Proof.
  unfold dispatch_cycle.
  destruct (left_idle_foldl st st d (map fst (map_to_list (domain_info st)))
              Hempty) as (_ & Hseg & Hdi); [|done].
  split; [done|]. split; [done|]. by eauto.
Qed.

End Cycle.

Section Cycles.
Import DispatcherExample.

Lemma quiet_is_young :
  Forall (young settings now) (latest (domain_links store "quiet.com")).
Proof.
  apply Forall_forall. intros r Hr. vm_compute in Hr.
  apply elem_of_cons in Hr as [->|Hr]; [by vm_compute|].
  by apply elem_of_nil in Hr.
Qed.

Lemma empty_segment_is_not_dispatched_witness :
  segments (dispatch_cycle settings now store) !! "quiet.com"
  = segments store !! "quiet.com" /\
  exists di', domain_info (dispatch_cycle settings now store) !! "quiet.com"
              = Some di' /\ dispatched di' = false.
Proof.
  apply (empty_segment_is_not_dispatched settings now store "quiet.com" idle).
  - reflexivity.
  - reflexivity.
  - by vm_compute.
Defined.

(** The same cycle dispatches test.com, whose segment is its one link. *)
Lemma test_com_is_dispatched :
  segments (dispatch_cycle settings now store) !! "test.com"
  = Some [mkSegmentRow "" "/" "http" NotYetCrawled] /\
  dispatched <$> domain_info (dispatch_cycle settings now store) !! "test.com"
  = Some true /\
  segments (dispatch_cycle settings now store) !! "quiet.com" = None.
Proof. repeat split; by vm_compute. Qed.

End Cycles.

End DispatcherFacts.

(** ** More properties of package [walker], file fetcher.go *)

Module FetcherFacts.
Import Walker FetcherTrace WalkerFacts.

Section Links.

Variable lib : Library.
Variable Config : FetcherConfig.
Variable world : World.

Lemma handed_over_run (fr : FetchResults) (now : nat) :
  handle_and_store world fr now = handed_over world fr now.
Proof. apply handle_and_store_run. Qed.

Lemma process_response_run (link : URL) (l : url_URL) fr resp now :
  URL_ link = Some l ->
  process_response lib Config world link fr resp now
  = response_run lib Config world link l fr resp now.
Proof.
  intros Hl. unfold process_response, response_run, ioutil_ReadAll.
  cbn [set_Response fr_Response].
  destruct (isHTML (Some resp)); [|apply handed_over_run].
  destruct (read_err (RespBody resp)) as [e|]; [reflexivity|].
  pose proof (getLinks_embedded lib Config (unread (RespBody resp))) as Hemb.
  destruct (getLinks lib Config (unread (RespBody resp)))
    as [outlinks [e|]] eqn:Hlinks.
  - assert (outlinks = []) as ->.
    { revert Hlinks. unfold getLinks.
      destruct (charset_NewReader lib _); congruence. }
    rewrite bind_run. cbn [mret M_ret length Nat.add app map fst snd].
    rewrite handed_over_run.
    by destruct (handed_over world _ now).
  - erewrite bind_val by (by eapply store_outlinks_run).
    cbn zeta. by rewrite handed_over_run.
Qed.

Lemma fetch_and_process_run (f : fetcher) (link : URL) (l : url_URL) now :
  URL_ link = Some l ->
  fetch_and_process lib Config world f link
    (mkFetchResults link None None zeroTime false) now
  = allowed_link_run lib Config world f link l now.
Proof.
  intros Hl. unfold fetch_and_process, allowed_link_run.
  rewrite bind_run. cbn [emit length Nat.add].
  rewrite bind_run. cbn [observe length Nat.add].
  rewrite bind_run, (fetch_run lib Config world link l) by done.
  destruct (http_NewRequest lib "GET" (url_String lib l)) as [req|err];
    [|reflexivity].
  cbv zeta.
  destruct (http_Do world (S now) _) as [resp|err]; [|reflexivity].
  cbn [length Nat.add]. rewrite (process_response_run link l) by done.
  by destruct (response_run lib Config world link l _ resp (S (S now))).
Qed.

Lemma process_link_run (f : fetcher) (link : URL) (l : url_URL) now :
  URL_ link = Some l ->
  process_link lib Config world f link now
  = link_run lib Config world f link l now.
Proof.
  intros Hl. unfold link_run, excluded_by.
  destruct (robots f) as [g|] eqn:Hr.
  - unfold process_link, URL_String, deref. rewrite Hr, Hl, bind_run. run.
    destruct (Test g (url_String lib l)); simpl; [|reflexivity].
    rewrite (fetch_and_process_run f link l) by done.
    by destruct (allowed_link_run lib Config world f link l now).
  - rewrite process_link_no_robots by done.
    by apply fetch_and_process_run.
Qed.

Lemma stored_results_app (evs1 evs2 : list Event) :
  stored_results (evs1 ++ evs2) = stored_results evs1 ++ stored_results evs2.
Proof. apply omap_app. Qed.

Lemma stored_results_outlinks (l : url_URL) fr (outlinks : list URL) :
  stored_results (map (fun o => EvStoreParsedURL (inherited l o) fr) outlinks)
  = [].
Proof. induction outlinks as [|o outlinks IH]; [done|]. exact IH. Qed.

Lemma handed_over_stored (fr : FetchResults) (now : nat) :
  returns_the_URL world ->
  deliverable fr ->
  (handed_over world fr now).1 = Val () /\
  fr_URL <$> stored_results (handed_over world fr now).2 = [fr_URL fr].
Proof.
  intros Hhandler Hfr. unfold handed_over.
  destruct (Hhandler now fr Hfr) as (fr' & -> & Hurl).
  split; [done|]. cbn. by rewrite Hurl.
Qed.

Lemma response_run_stored (link : URL) (l : url_URL) fr resp now :
  returns_the_URL world ->
  FetchError fr = None -> ExcludedByRobots fr = false ->
  (response_run lib Config world link l fr resp now).1 = Val () /\
  fr_URL <$> stored_results (response_run lib Config world link l fr resp now).2
  = [fr_URL fr].
Proof.
  intros Hhandler Herr Hex. unfold response_run.
  destruct (isHTML (Some resp)).
  - destruct (read_err (RespBody resp)); [done|]. cbv zeta.
    match goal with |- context [handed_over world ?x ?n] =>
      destruct (handed_over_stored x n Hhandler) as [Hval Hstored] end.
    { split; [by eexists|]. by split. }
    cbn [fst snd]. split; [done|].
    by rewrite stored_results_app, fmap_app, stored_results_outlinks, Hstored.
  - apply (handed_over_stored (set_Response (Some resp) fr)); [done|].
    split; [by eexists|]. by split.
Qed.

Lemma link_run_stored (f : fetcher) (link : URL) (l : url_URL) now :
  returns_the_URL world ->
  (link_run lib Config world f link l now).1 = Val () /\
  fr_URL <$> stored_results (link_run lib Config world f link l now).2
  = [link].
Proof.
  intros Hhandler. unfold link_run, allowed_link_run.
  destruct (excluded_by lib f l); [done|].
  destruct (http_NewRequest lib "GET" (url_String lib l)); [|done].
  cbv zeta. destruct (http_Do world (S now) _) as [resp|err]; [|done].
  match goal with |- context [response_run lib Config world link l ?x resp ?n] =>
    destruct (response_run_stored link l x resp n Hhandler eq_refl eq_refl)
      as [Hval Hstored] end.
  cbn [fst snd]. split; [done|]. exact Hstored.
Qed.

(** X1. When every link of the segment carries a URL, and the handler
    returns on every result it may be given and leaves its URL alone,
    the loop over the links visits every link, whatever else happens
    meanwhile: it ends without a panic, and the fetch results it stores
    are one per link, for the links in the order of the segment. *)
Theorem every_link_is_recorded_in_order
  (f : fetcher) (links : list URL) (now : nat)
  (Hlinks : Forall (fun link => is_Some (URL_ link)) links)
  (Hhandler : returns_the_URL world) :
  (crawl_links lib Config world f links now).1 = Val () /\
  fr_URL <$> stored_results (crawl_links lib Config world f links now).2
  = links.
Proof.
  revert now. induction Hlinks as [|link links [l Hl] _ IH]; intros now.
  - done.
  - cbn [crawl_links]. rewrite bind_run, (process_link_run f link l) by done.
    destruct (link_run_stored f link l now Hhandler) as [Hval Hstored].
    destruct (link_run lib Config world f link l now) as [o evs].
    cbn [fst snd] in *. subst o.
    destruct (IH (length evs + now)%nat) as [Hval' Hstored'].
    destruct (crawl_links lib Config world f links (length evs + now)%nat)
      as [o' evs'].
    cbn [fst snd] in *. split; [done|].
    by rewrite stored_results_app, fmap_app, Hstored, Hstored'.
Qed.

(** X2. A link whose request fails in the HTTP client costs the crawl
    delay and the one request; the error is stored with the time of the
    fetch and no response, and neither the handler nor [StoreParsedURL] is
    called. *)
Theorem transport_error_is_recorded
  (f : fetcher) (link : URL) (l : url_URL) (req : Request) (err : string)
  (now : nat)
  (Hlink : URL_ link = Some l)
  (Hallowed : excluded_by lib f l = false)
  (Hreq : http_NewRequest lib "GET" (url_String lib l) = Ok req)
  (Hdo : http_Do world (S now)
           (Header_Set "User-Agent" (UserAgent Config) req) = Err err) :
  process_link lib Config world f link now
  = (Val (),
     [EvSleep (crawldelay f);
      EvHttpDo (Header_Set "User-Agent" (UserAgent Config) req);
      EvStoreURLFetchResults
        (mkFetchResults link None (Some err) (time_Now world (S now)) false)]).
Proof.
  rewrite (process_link_run f link l) by done.
  unfold link_run, allowed_link_run. rewrite Hallowed, Hreq.
  cbv zeta. by rewrite Hdo.
Qed.

(** X3. When the URL of a link is one [http.NewRequest] rejects, the
    fetcher still sleeps the crawl delay but sends no request; it stores
    the error. *)
Theorem bad_request_sends_nothing
  (f : fetcher) (link : URL) (l : url_URL) (err : string) (now : nat)
  (Hlink : URL_ link = Some l)
  (Hallowed : excluded_by lib f l = false)
  (Hreq : http_NewRequest lib "GET" (url_String lib l) = Err err) :
  requests (process_link lib Config world f link now).2 = [] /\
  exists fr,
    (process_link lib Config world f link now).2
    = [EvSleep (crawldelay f); EvStoreURLFetchResults fr] /\
    fr_Response fr = None /\
    FetchError fr
    = Some ("Failed to create new request object for "
            +:+ url_String lib l +:+ "): " +:+ err).
Proof.
  rewrite (process_link_run f link l) by done.
  unfold link_run, allowed_link_run. rewrite Hallowed, Hreq.
  split; [done|]. by eexists.
Qed.

(** X4. When reading the body of an HTML response fails, the read error
    is stored as the fetch error of the link, next to the response; the
    handler is not called and no outlink is stored. *)
Theorem body_read_error_is_recorded
  (f : fetcher) (link : URL) (l : url_URL) (req : Request) (resp : Response)
  (err : string) (now : nat)
  (Hlink : URL_ link = Some l)
  (Hallowed : excluded_by lib f l = false)
  (Hreq : http_NewRequest lib "GET" (url_String lib l) = Ok req)
  (Hdo : http_Do world (S now)
           (Header_Set "User-Agent" (UserAgent Config) req) = Ok resp)
  (Hhtml : isHTML (Some resp) = true)
  (Hread : read_err (RespBody resp) = Some err) :
  let evs := (process_link lib Config world f link now).2 in
  handled evs = [] /\ stored_outlinks evs = [] /\
  exists fr,
    stored_results evs = [fr] /\ FetchError fr = Some err /\
    is_Some (fr_Response fr) /\ FetchTime fr = time_Now world (S now).
Proof.
  intros evs. subst evs.
  rewrite (process_link_run f link l) by done.
  unfold link_run, allowed_link_run, response_run.
  rewrite Hallowed, Hreq. cbv zeta. rewrite Hdo, Hhtml, Hread.
  split; [done|]. split; [done|]. eexists. by repeat split.
Qed.

(** X5. A response that is not HTML is not read: the handler is given
    the response as it was fetched, body unread, and no outlink is
    stored.  What is stored then is the result as the handler leaves it,
    and nothing is stored when the handler panics. *)
Theorem other_content_is_passed_unread
  (f : fetcher) (link : URL) (l : url_URL) (req : Request) (resp : Response)
  (now : nat)
  (Hlink : URL_ link = Some l)
  (Hallowed : excluded_by lib f l = false)
  (Hreq : http_NewRequest lib "GET" (url_String lib l) = Ok req)
  (Hdo : http_Do world (S now)
           (Header_Set "User-Agent" (UserAgent Config) req) = Ok resp)
  (Hhtml : isHTML (Some resp) = false) :
  let fr := mkFetchResults link (Some resp) None (time_Now world (S now))
                           false in
  let fetched :=
    [EvSleep (crawldelay f);
     EvHttpDo (Header_Set "User-Agent" (UserAgent Config) req);
     EvHandleResponse fr] in
  process_link lib Config world f link now
  = match Handler_HandleResponse world (2 + now) fr with
    | Done fr' => (Val (), fetched ++ [EvStoreURLFetchResults fr'])
    | Panicked msg => (Panic msg, fetched)
    end.
Proof.
  intros fr fetched. rewrite (process_link_run f link l) by done.
  unfold link_run, allowed_link_run, response_run, handed_over.
  rewrite Hallowed, Hreq. cbv zeta. rewrite Hdo, Hhtml.
  change (set_Response (Some resp) _) with fr.
  by destruct (Handler_HandleResponse world (2 + now) fr).
Qed.

(** **** What the events of a crawl carry *)

Lemma parsed_href_fresh (attr : string * string) (u : URL) :
  parsed_href lib attr = Some u ->
  is_Some (URL_ u) /\ LastCrawled u = NotYetCrawled.
Proof.
  unfold parsed_href. destruct (String.eqb attr.1 "href"); [|done].
  destruct (url_Parse lib attr.2); [|done].
  intros [= <-]. split; [by eexists|done].
Qed.

Lemma getLinks_fresh (contents : list byte) :
  Forall (fun o => is_Some (URL_ o) /\ LastCrawled o = NotYetCrawled)
         (getLinks lib Config contents).1.
Proof.
  unfold getLinks. destruct (charset_NewReader lib contents); [|by constructor].
  rewrite getLinks_loop_app. simpl. unfold document_hrefs.
  apply Forall_concat, Forall_map, Forall_forall. intros t _.
  unfold hrefs_of_token. destruct (considered Config t); [|by constructor].
  apply Forall_forall. intros u Hu.
  apply list_elem_of_omap in Hu as (attr & _ & Hattr).
  by eapply parsed_href_fresh.
Qed.

Lemma fetch_sound (u : URL) (now : nat) :
  Forall (sound_event Config) (fetch lib Config world u now).2.
Proof.
  unfold fetch, URL_String, deref.
  destruct (URL_ u) as [x|]; run; [|by constructor].
  unfold http_NewRequest. destruct (url_Parse lib (url_String lib x)); run;
    [|by constructor].
  constructor; [|by constructor]. split; [done|]. simpl.
  apply lookup_insert_eq.
Qed.

Lemma store_outlinks_sound link fr (outlinks : list URL) now :
  deliverable fr ->
  Forall (fun o => is_Some (URL_ o) /\ LastCrawled o = NotYetCrawled) outlinks ->
  Forall (sound_event Config) (store_outlinks link fr outlinks now).2.
Proof.
  intros Hfr Hfresh. revert now.
  induction Hfresh as [|outlink outlinks [_ Hlc] _ IH]; intros now.
  - by constructor.
  - cbn [store_outlinks]. apply Forall_bind; [|by intros].
    unfold store_outlink, deref.
    destruct (URL_ outlink) as [o|]; run; [|by constructor].
    destruct (String.eqb (Scheme o) ""), (URL_ link) as [l|]; run;
      try (by constructor);
      match goal with |- context [String.eqb (Host ?x) ""] =>
        destruct (String.eqb (Host x) "") end; run;
      by constructor.
Qed.

Lemma process_response_sound link fr resp now :
  FetchError fr = None -> ExcludedByRobots fr = false ->
  Forall (sound_event Config)
         (process_response lib Config world link fr resp now).2.
Proof.
  intros Herr Hex. unfold process_response, ioutil_ReadAll.
  assert (forall fr', deliverable fr' ->
            forall now', Forall (sound_event Config)
              (handle_and_store world fr' now').2) as Hhs.
  { intros fr' Hfr' now'. rewrite handle_and_store_run.
    destruct (Handler_HandleResponse world now' fr');
      (constructor; [exact Hfr'|]); by repeat constructor. }
  destruct (isHTML _).
  - destruct (read_err (RespBody resp)) as [e|];
      [run; constructor; [exact I|constructor]|].
    assert (deliverable
              (set_Response
                 (Some (set_Body (bytes_NewReader (unread (RespBody resp))) resp))
                 (set_FetchError None
                    (set_Response
                       (Some (set_Body (mkBody [] None) resp))
                       (set_Response (Some resp) fr))))) as Hd.
    { split; [by eexists|]. by split. }
    apply Forall_bind; [|intros; by apply Hhs].
    pose proof (getLinks_fresh (unread (RespBody resp))) as Hfresh.
    destruct (getLinks lib Config _) as [outlinks [e|]].
    + by constructor.
    + by apply store_outlinks_sound.
  - apply Hhs. split; [by eexists|]. by split.
Qed.

Lemma process_link_sound (f : fetcher) (link : URL) (now : nat) :
  Forall (sound_event Config) (process_link lib Config world f link now).2.
Proof.
  assert (forall now',
            Forall (sound_event Config)
              (fetch_and_process lib Config world f link
                 (mkFetchResults link None None zeroTime false) now').2) as Hfp.
  { intros now'. unfold fetch_and_process.
    apply Forall_bind; [constructor; [exact I|constructor]|]. intros _ now1.
    apply Forall_bind; [by constructor|]. intros t now2.
    apply Forall_bind; [apply fetch_sound|]. intros [resp|err] now3.
    - by apply process_response_sound.
    - constructor; [exact I|constructor]. }
  destruct (robots f) as [g|] eqn:Hr.
  - unfold process_link. rewrite Hr, bind_run.
    unfold URL_String, deref.
    destruct (URL_ link) as [l|]; run; [|by constructor].
    destruct (Test g (url_String lib l)); simpl.
    + specialize (Hfp now).
      by destruct (fetch_and_process _ _ _ _ _ _ _).
    + constructor; [exact I|constructor].
  - by rewrite process_link_no_robots.
Qed.

Lemma crawl_links_sound (f : fetcher) (links : list URL) (now : nat) :
  Forall (sound_event Config) (crawl_links lib Config world f links now).2.
Proof.
  revert now. induction links as [|link links IH]; intros now.
  - by constructor.
  - cbn [crawl_links]. apply Forall_bind; [apply process_link_sound|].
    by intros.
Qed.

Lemma crawl_host_sound (h : string) (now : nat) :
  Forall (sound_event Config) (crawl_host lib Config world h now).2.
Proof.
  unfold crawl_host. apply Forall_bind.
  - unfold fetchRobots. apply Forall_bind; [apply fetch_sound|].
    intros [res|e] now1; [|by constructor].
    destruct (robotstxt_FromResponse lib res); by constructor.
  - intros o now1. apply Forall_bind; [constructor; [exact I|constructor]|].
    intros links now2. apply Forall_bind; [apply crawl_links_sound|].
    intros; by constructor.
Qed.

(** X6. Every request the fetcher sends for a host, the one for robots.txt
    and those for the links, is a GET that carries the configured
    [User-Agent]. *)
Theorem every_request_carries_the_user_agent
  (h : string) (now : nat) (req : Request) :
  EvHttpDo req ∈ (crawl_host lib Config world h now).2 ->
  Method req = "GET" /\
  ReqHeader req !! "User-Agent" = Some [UserAgent Config].
Proof.
  intros Hin. pose proof (crawl_host_sound h now) as Hall.
  rewrite Forall_forall in Hall. exact (Hall _ Hin).
Qed.

(** X7. The handler is only ever given a result that has a response, no
    fetch error, and is not excluded by robots.txt. *)
Theorem handler_gets_fetched_responses_only
  (h : string) (now : nat) (fr : FetchResults) :
  EvHandleResponse fr ∈ (crawl_host lib Config world h now).2 ->
  is_Some (fr_Response fr) /\ FetchError fr = None /\
  ExcludedByRobots fr = false.
Proof.
  intros Hin. pose proof (crawl_host_sound h now) as Hall.
  rewrite Forall_forall in Hall. exact (Hall _ Hin).
Qed.

(** X8. Every URL passed to [StoreParsedURL] has a non-nil [url.URL] and
    [LastCrawled = NotYetCrawled], never the zero time; the result passed
    with it is that of a page fetched without error. *)
Theorem parsed_urls_are_not_yet_crawled
  (h : string) (now : nat) (u : URL) (fr : FetchResults) :
  EvStoreParsedURL u fr ∈ (crawl_host lib Config world h now).2 ->
  is_Some (URL_ u) /\ LastCrawled u = NotYetCrawled /\
  LastCrawled u <> zeroTime /\ FetchError fr = None.
Proof.
  intros Hin. pose proof (crawl_host_sound h now) as Hall.
  rewrite Forall_forall in Hall.
  destruct (Hall _ Hin) as (Hu & Hlc & _ & Hfr & _).
  repeat split; try done. by rewrite Hlc.
Qed.

End Links.

Section Tags.

Variable lib : Library.

(** X9. Link extraction depends on [IgnoreTags] as a set only: its order,
    its repetitions, and any tag in it that is not one of the eight tags
    looked at, change nothing. *)
Theorem getLinks_ignores_tags_as_a_set
  (c1 c2 : FetcherConfig) (contents : list byte)
  (Hsame : forall t, t ∈ default_tags ->
             (t ∈ IgnoreTags c1 <-> t ∈ IgnoreTags c2)) :
  getLinks lib c1 contents = getLinks lib c2 contents.
Proof.
  unfold getLinks. destruct (charset_NewReader lib contents); [|done].
  rewrite !getLinks_loop_app. f_equal. f_equal.
  unfold document_hrefs. f_equal. apply map_ext. intros t.
  unfold hrefs_of_token, considered.
  destruct (tok_type t); try done.
  destruct (decide (tok_name t ∈ default_tags)) as [Hin|Hin].
  - rewrite (bool_decide_ext _ _ (Hsame _ Hin)). done.
  - by rewrite (bool_decide_eq_false_2 _ Hin).
Qed.

End Tags.

Section Start.

Variable lib : Library.
Variable Config : FetcherConfig.
Variable world : World.

(** One turn of the outer loop. *)
Lemma start_turn (fuel : nat) (f : fetcher) (now : nat) :
  let t := (length (release f) + now)%nat in
  start lib Config world (S fuel) f now
  = if quit_signaled world t then
      (Val (), release f ++ [EvPollQuit true; EvDone])
    else
      let h := ClaimNewHost world (S t) in
      if bool_decide (h = "") then
        let r := start lib Config world fuel
                   (mkFetcher h (robots f) (crawldelay f)) (3 + t)%nat in
        (r.1, release f
              ++ [EvPollQuit false; EvClaimNewHost h; EvSleep Second] ++ r.2)
      else
        match crawl_host lib Config world h (2 + t)%nat with
        | (Val f', evs) =>
            let r := start lib Config world fuel f'
                       (length evs + (2 + t))%nat in
            (r.1, release f
                  ++ [EvPollQuit false; EvClaimNewHost h] ++ evs ++ r.2)
        | (Panic msg, evs) =>
            (Panic msg, release f ++ [EvPollQuit false; EvClaimNewHost h] ++ evs)
        | (OutOfFuel, evs) =>
            (OutOfFuel, release f ++ [EvPollQuit false; EvClaimNewHost h] ++ evs)
        end.
Proof.
  intros t. subst t. cbn [start]. unfold release.
  destruct (bool_decide (host f = "")); rewrite bind_run; run;
    match goal with |- context [quit_signaled world ?i] =>
      destruct (quit_signaled world i) end; run; try reflexivity;
    match goal with |- context [ClaimNewHost world ?i] =>
      destruct (bool_decide (ClaimNewHost world i = "")) end; run;
    try (match goal with |- context [start lib Config world fuel ?g ?i] =>
           by destruct (start lib Config world fuel g i) end);
    match goal with |- context [crawl_host lib Config world ?h ?i] =>
      destruct (crawl_host lib Config world h i) as [[f'|msg|] evs] end;
    try reflexivity;
    match goal with |- context [start lib Config world fuel ?g ?i] =>
      by destruct (start lib Config world fuel g i) end.
Qed.

(** X10. When [stop] is waiting as a turn of the outer loop begins, the
    fetcher releases the host it holds, if any, receives the signal and
    reports done: it claims no host and fetches nothing. *)
Theorem quit_releases_the_host_and_ends (fuel : nat) (f : fetcher) (now : nat)
  (Hquit : quit_signaled world (length (release f) + now)%nat = true) :
  start lib Config world (S fuel) f now
  = (Val (), release f ++ [EvPollQuit true; EvDone]) /\
  (host f <> "" -> release f = [EvUnclaimHost (host f)]).
Proof.
  rewrite start_turn. cbv zeta. rewrite Hquit. split; [done|].
  intros Hheld. unfold release. by rewrite bool_decide_eq_false_2.
Qed.

(** X11. When [ClaimNewHost] has no host to give, the fetcher sleeps one
    second and takes another turn, holding no host: that turn releases
    nothing. *)
Theorem no_host_sleeps_a_second (fuel : nat) (f : fetcher) (now : nat)
  (Hquit : quit_signaled world (length (release f) + now)%nat = false)
  (Hnone : ClaimNewHost world (S (length (release f) + now)) = "") :
  let idle := mkFetcher "" (robots f) (crawldelay f) in
  let next := start lib Config world fuel idle
                (3 + (length (release f) + now))%nat in
  start lib Config world (S fuel) f now
  = (next.1,
     release f
     ++ [EvPollQuit false; EvClaimNewHost ""; EvSleep Second] ++ next.2) /\
  release idle = [].
Proof.
  intros idle next. rewrite start_turn. cbv zeta. rewrite Hquit, Hnone.
  by rewrite bool_decide_eq_true_2.
Qed.

Lemma well_claimed_keeps (held : string) (evs1 evs2 : list Event) :
  Forall keeps_claim evs1 ->
  well_claimed held (evs1 ++ evs2) <-> well_claimed held evs2.
Proof.
  induction 1 as [|e evs1 He _ IH]; [done|].
  by destruct e.
Qed.

Lemma well_claimed_release (f : fetcher) (evs : list Event) :
  well_claimed (host f) (release f ++ evs) <-> well_claimed "" evs.
Proof.
  unfold release. case_bool_decide as Hheld.
  - by rewrite Hheld.
  - simpl. tauto.
Qed.

Lemma crawl_host_keeps (h : string) (now : nat) :
  Forall keeps_claim (crawl_host lib Config world h now).2.
Proof.
  assert (forall f e, link_event f e -> keeps_claim e) as Hlink
    by (intros f []; done).
  unfold crawl_host. apply Forall_bind.
  - unfold fetchRobots. apply Forall_bind.
    + eapply Forall_impl;
        [apply (fetch_events lib Config world (mkFetcher h None 0))|].
      apply Hlink.
    + intros [res|e] now1; [|by constructor].
      destruct (robotstxt_FromResponse lib res); by constructor.
  - intros o now1. apply Forall_bind; [constructor; [exact I|constructor]|].
    intros links now2. apply Forall_bind; [|intros; by constructor].
    eapply Forall_impl; [apply crawl_links_events|]. apply Hlink.
Qed.

Lemma crawl_host_host (h : string) (now : nat) (f : fetcher) evs :
  crawl_host lib Config world h now = (Val f, evs) -> host f = h.
Proof.
  unfold crawl_host. rewrite bind_run.
  destruct (fetchRobots lib Config world h now) as [[o|msg|] evs0]; [|done|done].
  rewrite bind_run. cbn [call]. rewrite bind_run.
  destruct (crawl_links _ _ _ _ _ _) as [[[]|msg|] evs1]; [|done|done].
  run. by intros [= <- _].
Qed.

(** X12. Claims are kept in order along every run of [start], however it
    ends: a host is released only while it is the one held, a new host is
    claimed only while none is held, and the fetcher reports done only
    while none is held, as the last thing it does; a run that returns has
    reported done. *)
Theorem start_keeps_claims_in_order (fuel : nat) (f : fetcher) (now : nat) :
  well_claimed (host f) (start lib Config world fuel f now).2 /\
  ((start lib Config world fuel f now).1 = Val () ->
   last (start lib Config world fuel f now).2 = Some EvDone).
Proof.
  revert f now. induction fuel as [|fuel IH]; intros f now; [done|].
  rewrite start_turn. cbv zeta.
  destruct (quit_signaled world _).
  { cbn [fst snd]. rewrite well_claimed_release. split; [done|].
    intros _. by rewrite last_app. }
  case_bool_decide as Hnone.
  { destruct (IH (mkFetcher (ClaimNewHost world (S (length (release f) + now)))
                    (robots f) (crawldelay f))
                 (3 + (length (release f) + now))%nat) as [Hwc Hlast].
    cbn [fst snd]. rewrite well_claimed_release. split.
    - simpl. split; [done|]. simpl in Hwc. by rewrite Hnone in *.
    - intros Hval. specialize (Hlast Hval).
      rewrite !last_app, Hlast. done. }
  pose proof (crawl_host_keeps (ClaimNewHost world (S (length (release f) + now)))
                (2 + (length (release f) + now))%nat) as Hkeeps.
  destruct (crawl_host lib Config world _ _) as [[f'|msg|] evs] eqn:Hhost;
    cbn [fst snd] in *; rewrite well_claimed_release.
  - destruct (IH f' (length evs + (2 + (length (release f) + now)))%nat)
      as [Hwc Hlast].
    apply crawl_host_host in Hhost. rewrite Hhost in Hwc. split.
    + simpl. split; [done|]. by apply well_claimed_keeps.
    + intros Hval. specialize (Hlast Hval). rewrite !last_app, Hlast. done.
  - split; [|done]. simpl. split; [done|].
    rewrite <- (app_nil_r evs). by apply well_claimed_keeps.
  - split; [|done]. simpl. split; [done|].
    rewrite <- (app_nil_r evs). by apply well_claimed_keeps.
Qed.

End Start.

Section Instances.

Import Example FetcherExample.

Lemma every_link_is_recorded_in_order_witness :
  (crawl_links lib config (world "") guarded segment 3%nat).1 = Val () /\
  fr_URL
    <$> stored_results (crawl_links lib config (world "") guarded segment
                          3%nat).2
  = segment.
Proof.
  apply (every_link_is_recorded_in_order lib config (world "") guarded
           segment 3%nat).
  - repeat constructor; eexists; reflexivity.
  - intros now fr _. by exists fr.
Defined.

Lemma transport_error_is_recorded_witness :
  process_link lib config offline guarded home 4%nat
  = (Val (),
     [EvSleep Second; EvHttpDo (request_for home_url);
      EvStoreURLFetchResults
        (mkFetchResults home None (Some "dial tcp: connection refused")
                        fetched false)]).
Proof.
  apply (transport_error_is_recorded lib config offline guarded home home_url
           (mkRequest "GET" home_url ∅) "dial tcp: connection refused" 4%nat);
    reflexivity.
Defined.

Lemma bad_request_sends_nothing_witness :
  requests (process_link lib config (world "") guarded colon 4%nat).2 = [] /\
  exists fr,
    (process_link lib config (world "") guarded colon 4%nat).2
    = [EvSleep Second; EvStoreURLFetchResults fr] /\
    fr_Response fr = None /\
    FetchError fr
    = Some ("Failed to create new request object for :bad): "
            +:+ "parse :bad: missing protocol scheme").
Proof.
  apply (bad_request_sends_nothing lib config (world "") guarded colon
           (mk_url "" "" None "" ":bad" "" "")
           "parse :bad: missing protocol scheme" 4%nat); reflexivity.
Defined.

Lemma body_read_error_is_recorded_witness :
  let evs := (process_link lib config truncating guarded home 4%nat).2 in
  handled evs = [] /\ stored_outlinks evs = [] /\
  exists fr,
    stored_results evs = [fr] /\ FetchError fr = Some "unexpected EOF" /\
    is_Some (fr_Response fr) /\ FetchTime fr = fetched.
Proof.
  apply (body_read_error_is_recorded lib config truncating guarded home
           home_url (mkRequest "GET" home_url ∅) broken_page
           "unexpected EOF" 4%nat); reflexivity.
Defined.

Lemma other_content_is_passed_unread_witness :
  let fr := mkFetchResults next (Some next_page) None fetched false in
  process_link lib config mocked guarded next 4%nat
  = (Val (),
     [EvSleep Second; EvHttpDo (request_for next_url);
      EvHandleResponse fr; EvStoreURLFetchResults fr]).
Proof.
  apply (other_content_is_passed_unread lib config mocked guarded next
           next_url (mkRequest "GET" next_url ∅) next_page 4%nat);
    reflexivity.
Defined.

(** With [MockHandler] for a handler, plain text that breaks off makes the
    fetcher panic at line 232: the result is not stored. *)
Lemma broken_text_is_not_stored :
  process_link lib config mocked_truncating guarded next 4%nat
  = (Panic "unexpected EOF",
     [EvSleep Second; EvHttpDo (request_for next_url);
      EvHandleResponse
        (mkFetchResults next (Some broken_text) None fetched false)]).
Proof. reflexivity. Qed.

Lemma every_request_carries_the_user_agent_witness :
  Method (request_for robots_txt_url) = "GET" /\
  ReqHeader (request_for robots_txt_url) !! "User-Agent"
  = Some [UserAgent config].
Proof.
  apply (every_request_carries_the_user_agent lib config (world "")
           "test.com" 2%nat (request_for robots_txt_url)).
  apply (list_elem_of_lookup_2 _ 0%nat). reflexivity.
Defined.

Lemma handler_gets_fetched_responses_only_witness :
  is_Some (fr_Response next_result) /\ FetchError next_result = None /\
  ExcludedByRobots next_result = false.
Proof.
  apply (handler_gets_fetched_responses_only lib config (world "")
           "test.com" 2%nat next_result).
  apply (list_elem_of_lookup_2 _ 13%nat). reflexivity.
Defined.

Lemma parsed_urls_are_not_yet_crawled_witness :
  is_Some (URL_ next_outlink) /\ LastCrawled next_outlink = NotYetCrawled /\
  LastCrawled next_outlink <> zeroTime /\ FetchError home_result = None.
Proof.
  apply (parsed_urls_are_not_yet_crawled lib config (world "")
           "test.com" 2%nat next_outlink home_result).
  apply (list_elem_of_lookup_2 _ 4%nat). reflexivity.
Defined.

Lemma getLinks_ignores_tags_as_a_set_witness :
  getLinks lib config (bytes home_page)
  = getLinks lib shuffled (bytes home_page).
Proof.
  apply (getLinks_ignores_tags_as_a_set lib config shuffled).
  intros t Ht. unfold default_tags in Ht.
  etrans; [symmetry; apply bool_decide_spec|].
  etrans; [|apply bool_decide_spec].
  repeat (apply elem_of_cons in Ht as [->|Ht]; [vm_compute; tauto|]).
  by apply elem_of_nil in Ht.
Defined.

Lemma quit_releases_the_host_and_ends_witness :
  start lib config (world "") 1%nat guarded 5%nat
  = (Val (), release guarded ++ [EvPollQuit true; EvDone]) /\
  (host guarded <> "" -> release guarded = [EvUnclaimHost (host guarded)]).
Proof.
  apply (quit_releases_the_host_and_ends lib config (world "") 0%nat guarded
           5%nat).
  reflexivity.
Defined.

Lemma no_host_sleeps_a_second_witness :
  let next := start lib config (world "") 1%nat idle 5%nat in
  start lib config (world "") 2%nat idle 2%nat
  = (next.1,
     release idle
     ++ [EvPollQuit false; EvClaimNewHost ""; EvSleep Second] ++ next.2) /\
  release idle = [].
Proof.
  apply (no_host_sleeps_a_second lib config (world "") 1%nat idle 2%nat);
    reflexivity.
Defined.

End Instances.

End FetcherFacts.

(** ** Properties of [CreateURL], [ToplevelDomainPlusOne] and [Subdomain] *)

Module URLFacts.
Import Walker WalkerURL.

Section Strings.

Lemma length_append (a b : string) :
  String.length (a +:+ b) = (String.length a + String.length b)%nat.
Proof. induction a as [|c a IH]; [done|]. simpl. by rewrite IH. Qed.

Lemma append_assoc (a b c : string) : (a +:+ b) +:+ c = a +:+ (b +:+ c).
Proof.
  induction a as [|x a IH]; [done|].
  change (String x ((a +:+ b) +:+ c) = String x (a +:+ (b +:+ c))).
  by rewrite IH.
Qed.

Lemma substring_all (s : string) : String.substring 0 (String.length s) s = s.
Proof. induction s as [|c s IH]; [done|]. simpl. by rewrite IH. Qed.

Lemma substring_skip (a b : string) (n : nat) :
  String.substring (String.length a) n (a +:+ b) = String.substring 0 n b.
Proof. induction a as [|c a IH]; [done|]. exact IH. Qed.

Lemma substring_head (a b : string) :
  String.substring 0 (String.length a) (a +:+ b) = a.
Proof.
  induction a as [|c a IH]; [by destruct b|]. simpl. by rewrite IH.
Qed.

Lemma HasSuffix_append (a b : string) : HasSuffix (a +:+ b) b = true.
Proof.
  unfold HasSuffix. rewrite length_append.
  replace (String.length a + String.length b - String.length b)%nat
    with (String.length a) by lia.
  rewrite substring_skip, substring_all, String.eqb_refl, andb_true_r.
  apply Nat.leb_le. lia.
Qed.

Lemma TrimSuffix_append (a b : string) : TrimSuffix (a +:+ b) b = a.
Proof.
  unfold TrimSuffix. rewrite HasSuffix_append, length_append.
  replace (String.length a + String.length b - String.length b)%nat
    with (String.length a) by lia.
  apply substring_head.
Qed.

End Strings.

Section URLs.

Variable lib : Library.
Variable EffectiveTLDPlusOne : string -> result string.

(** X13. [CreateURL] returns a nil URL and the error when the reference
    it builds does not parse; when it parses, the URL returned is the
    parsed one with [LastCrawled] set to the time given, not to
    [NotYetCrawled]. *)
Theorem CreateURL_parses_or_fails
  (domain subdomain path protocol : string) (lastcrawled : Time) :
  match url_Parse lib (CreateURL_ref domain subdomain path protocol) with
  | Ok u =>
      CreateURL lib domain subdomain path protocol lastcrawled
      = (Some (mkURL (Some u) lastcrawled), None)
  | Err err =>
      CreateURL lib domain subdomain path protocol lastcrawled
      = (None, Some err)
  end.
Proof.
  unfold CreateURL, ParseURL.
  by destruct (url_Parse lib (CreateURL_ref domain subdomain path protocol)).
Qed.

(** X14. [CreateURL] takes a subdomain with or without its trailing dot,
    whatever the path, and a path with or without its leading slash,
    whatever the subdomain: either spelling gives the same result. *)
Theorem CreateURL_accepts_both_spellings
  (domain subdomain path protocol : string) (lastcrawled : Time) :
  (subdomain <> "" -> HasSuffix subdomain "." = false ->
   CreateURL lib domain subdomain path protocol lastcrawled
   = CreateURL lib domain (subdomain +:+ ".") path protocol lastcrawled) /\
  (path <> "" -> HasPrefix path "/" = false ->
   CreateURL lib domain subdomain path protocol lastcrawled
   = CreateURL lib domain subdomain ("/" +:+ path) protocol lastcrawled).
Proof.
  split.
  - intros Hsub Hdot.
    assert (CreateURL_ref domain subdomain path protocol
            = CreateURL_ref domain (subdomain +:+ ".") path protocol) as Href.
    { unfold CreateURL_ref. rewrite Hdot, HasSuffix_append.
      apply String.eqb_neq in Hsub. rewrite Hsub. simpl.
      by destruct (String.eqb (subdomain +:+ ".") ""). }
    unfold CreateURL. by rewrite Href.
  - intros Hpath Hslash.
    assert (CreateURL_ref domain subdomain path protocol
            = CreateURL_ref domain subdomain ("/" +:+ path) protocol) as Href.
    { unfold CreateURL_ref. rewrite Hslash.
      apply String.eqb_neq in Hpath. rewrite Hpath.
      change ("/" +:+ path) with (String "/" path).
      by destruct path. }
    unfold CreateURL. by rewrite Href.
Qed.

(** X15. For a host made of a subdomain, a dot and the domain the public
    suffix list gives for it, [ToplevelDomainPlusOne] is that domain and
    [Subdomain] is the subdomain, without the dot. *)
Theorem Subdomain_splits_the_host
  (u : URL) (x : url_URL) (sub domain : string)
  (Hu : URL_ u = Some x)
  (Hhost : Host x = sub +:+ "." +:+ domain)
  (Htld : EffectiveTLDPlusOne (Host x) = Ok domain) :
  ToplevelDomainPlusOne EffectiveTLDPlusOne u = Some domain /\
  Subdomain EffectiveTLDPlusOne u = Some sub.
Proof.
  unfold Subdomain, ToplevelDomainPlusOne. rewrite Hu. simpl. rewrite Htld.
  split; [done|]. simpl. rewrite Hhost, length_append.
  assert ((String.length sub + String.length ("." +:+ domain)
           =? String.length domain)%nat = false) as ->.
  { apply Nat.eqb_neq. rewrite length_append.
    change (String.length ".") with 1%nat. lia. }
  by rewrite TrimSuffix_append.
Qed.

(** X16. When the host is the registered domain itself, and when the
    public suffix list has no answer for the host, [Subdomain] is empty;
    in the second case [ToplevelDomainPlusOne] is the whole host. *)
Theorem Subdomain_of_a_bare_host (u : URL) (x : url_URL)
  (Hu : URL_ u = Some x)
  (Hbare : EffectiveTLDPlusOne (Host x) = Ok (Host x)
           \/ is_Some (err_of (EffectiveTLDPlusOne (Host x)))) :
  ToplevelDomainPlusOne EffectiveTLDPlusOne u = Some (Host x) /\
  Subdomain EffectiveTLDPlusOne u = Some "".
Proof.
  unfold Subdomain, ToplevelDomainPlusOne. rewrite Hu. simpl.
  destruct Hbare as [->|[e He]].
  - simpl. by rewrite Nat.eqb_refl.
  - destruct (EffectiveTLDPlusOne (Host x)); [done|].
    simpl. by rewrite Nat.eqb_refl.
Qed.

(** X17. The datastore columns of a URL give the URL back: from the
    domain and the subdomain that [ToplevelDomainPlusOne] and [Subdomain]
    return, the path and the scheme, [CreateURL] parses
    [scheme://host] followed by the path. *)
Theorem CreateURL_rebuilds_the_reference
  (u : URL) (x : url_URL) (sub domain : string) (lastcrawled : Time)
  (Hu : URL_ u = Some x)
  (Hhost : Host x = sub +:+ "." +:+ domain)
  (Htld : EffectiveTLDPlusOne (Host x) = Ok domain)
  (Hsub : sub <> "") (Hdot : HasSuffix sub "." = false)
  (Hpath : Path x = "" \/ HasPrefix (Path x) "/" = true) :
  exists d s,
    ToplevelDomainPlusOne EffectiveTLDPlusOne u = Some d /\
    Subdomain EffectiveTLDPlusOne u = Some s /\
    CreateURL_ref d s (Path x) (Scheme x)
    = Scheme x +:+ "://" +:+ Host x +:+ Path x /\
    CreateURL lib d s (Path x) (Scheme x) lastcrawled
    = ((fun p => mkURL (Some p) lastcrawled)
         <$> ptr_of (url_Parse lib (Scheme x +:+ "://" +:+ Host x +:+ Path x)),
       err_of (url_Parse lib (Scheme x +:+ "://" +:+ Host x +:+ Path x))).
Proof.
  exists domain, sub.
  assert (ToplevelDomainPlusOne EffectiveTLDPlusOne u = Some domain /\
          Subdomain EffectiveTLDPlusOne u = Some sub) as [Hd Hs].
  { unfold Subdomain, ToplevelDomainPlusOne. rewrite Hu. simpl. rewrite Htld.
    split; [done|]. simpl. rewrite Hhost, length_append.
    assert ((String.length sub + String.length ("." +:+ domain)
             =? String.length domain)%nat = false) as ->.
    { apply Nat.eqb_neq. rewrite length_append.
    change (String.length ".") with 1%nat. lia. }
    by rewrite TrimSuffix_append. }
  assert (CreateURL_ref domain sub (Path x) (Scheme x)
          = Scheme x +:+ "://" +:+ Host x +:+ Path x) as Href.
  { unfold CreateURL_ref. rewrite Hdot.
    apply String.eqb_neq in Hsub. rewrite Hsub. simpl.
    assert (negb (String.eqb (Path x) "") && negb (HasPrefix (Path x) "/")
            = false) as ->.
    { destruct Hpath as [->| ->]; [done|]. by rewrite andb_false_r. }
    rewrite Hhost. by rewrite !append_assoc. }
  split; [done|]. split; [done|]. split; [done|].
  unfold CreateURL, ParseURL. rewrite Href.
  by destruct (url_Parse lib _).
Qed.

End URLs.

Section Instances.

Import WalkerURLExample.

Lemma CreateURL_accepts_both_spellings_witness :
  CreateURL Example.lib "bbc.co.uk" "www" "news" "http" yesterday
  = CreateURL Example.lib "bbc.co.uk" "www." "news" "http" yesterday /\
  CreateURL Example.lib "bbc.co.uk" "www" "news" "http" yesterday
  = CreateURL Example.lib "bbc.co.uk" "www" "/news" "http" yesterday.
Proof.
  destruct (CreateURL_accepts_both_spellings Example.lib
              "bbc.co.uk" "www" "news" "http" yesterday) as [Hdot Hslash].
  split; [apply Hdot | apply Hslash]; first [reflexivity | discriminate].
Defined.

Lemma Subdomain_splits_the_host_witness :
  ToplevelDomainPlusOne EffectiveTLDPlusOne bbc = Some "bbc.co.uk" /\
  Subdomain EffectiveTLDPlusOne bbc = Some "www".
Proof.
  apply (Subdomain_splits_the_host EffectiveTLDPlusOne bbc
           (mk_url "http" "" None "www.bbc.co.uk" "/news" "" "")
           "www" "bbc.co.uk"); reflexivity.
Defined.

Lemma Subdomain_of_a_bare_host_witness :
  ToplevelDomainPlusOne EffectiveTLDPlusOne Example.home = Some "test.com" /\
  Subdomain EffectiveTLDPlusOne Example.home = Some "".
Proof.
  apply (Subdomain_of_a_bare_host EffectiveTLDPlusOne Example.home
           Example.home_url).
  - reflexivity.
  - left. reflexivity.
Defined.

Lemma CreateURL_rebuilds_the_reference_witness :
  exists d s,
    ToplevelDomainPlusOne EffectiveTLDPlusOne bbc = Some d /\
    Subdomain EffectiveTLDPlusOne bbc = Some s /\
    CreateURL_ref d s "/news" "http" = "http://www.bbc.co.uk/news" /\
    CreateURL Example.lib d s "/news" "http" yesterday
    = (Some (mkURL (Some (mk_url "http" "" None "www.bbc.co.uk" "/news" "" ""))
                   yesterday), None).
Proof.
  apply (CreateURL_rebuilds_the_reference Example.lib EffectiveTLDPlusOne bbc
           (mk_url "http" "" None "www.bbc.co.uk" "/news" "" "")
           "www" "bbc.co.uk" yesterday);
    first [reflexivity | discriminate | right; reflexivity].
Defined.

End Instances.

End URLFacts.

(** ** More properties of package [walker], file config.go *)

Module ConfigInitFacts.
Import ConfigFile ConfigInit ConfigFacts.

Section Init.

Variable sys : System.

Lemma Contains_append (a b substr : string) :
  Contains b substr = true -> Contains (a +:+ b) substr = true.
Proof.
  intros Hb. induction a as [|c a IH]; [done|].
  change (String c a +:+ b) with (String c (a +:+ b)).
  cbn [Contains]. rewrite IH. apply orb_true_r.
Qed.

(** X18. When the configuration file cannot be read, [readConfig] returns
    the error before it refills the sequence options it has reset:
    [Config] is left with the other defaults, but with empty
    [AcceptFormats], [AcceptProtocols], [IgnoreTags], [Cassandra.Hosts]
    and [PurgeSidList]; [PostConfigHooks] is not run. *)
Theorem unreadable_file_leaves_sequences_empty
  (ConfigName err : string)
  (Hread : ioutil_ReadFile sys ConfigName = Err err) :
  let Config := (readConfig sys ConfigName).1 in
  (readConfig sys ConfigName).2
  = Returns (Some ("Failed to read config file (" +:+ ConfigName +:+ "): "
                   +:+ err)) /\
  AcceptFormats Config = [] /\ AcceptProtocols Config = [] /\
  IgnoreTags Config = [] /\ Hosts (Cassandra Config) = [] /\
  PurgeSidList Config = [] /\
  Dispatcher Config = Dispatcher SetDefaultConfig /\
  DefaultCrawlDelay Config = "1s" /\ MaxCrawlDelay Config = "5m".
Proof.
  intros Config. subst Config. unfold readConfig. rewrite Hread.
  by repeat split.
Qed.

(** X19. Once the file is read and unmarshalled, none of the five
    sequence options is empty in [Config], whatever the file says: a
    sequence the file leaves empty is set to its default, so that
    [IgnoreTags] cannot be configured to ignore no tag. *)
Theorem loaded_sequences_are_never_empty
  (ConfigName data : string) (unmarshalled : WalkerConfig)
  (Hread : ioutil_ReadFile sys ConfigName = Ok data)
  (Hyaml : yaml_Unmarshal sys data
             (set_sequences [] [] [] [] [] SetDefaultConfig)
           = (unmarshalled, None)) :
  let Config := (readConfig sys ConfigName).1 in
  AcceptFormats Config <> [] /\ AcceptProtocols Config <> [] /\
  IgnoreTags Config <> [] /\ Hosts (Cassandra Config) <> [] /\
  PurgeSidList Config <> [] /\
  (IgnoreTags unmarshalled = [] ->
   IgnoreTags Config = ["script"; "img"; "link"]) /\
  (IgnoreTags unmarshalled <> [] ->
   IgnoreTags Config = IgnoreTags unmarshalled).
Proof.
  intros Config. subst Config. unfold readConfig. rewrite Hread, Hyaml.
  assert (forall given fallback, fallback <> [] ->
            or_default given fallback <> []) as Hne.
  { intros given fallback Hf. unfold or_default. by destruct given. }
  destruct (PostConfigHooks sys _); cbn [fst set_sequences AcceptFormats
    AcceptProtocols IgnoreTags Cassandra Hosts PurgeSidList];
    (repeat split; try (by apply Hne));
    unfold or_default; by destruct (IgnoreTags unmarshalled).
Qed.

(** X20. A missing configuration file is not fatal at start-up: when
    reading walker.yaml fails with "no such file or directory", [init]
    does not panic and leaves the defaults, the sequence options empty. *)
Theorem init_tolerates_a_missing_file (err : string)
  (Hread : ioutil_ReadFile sys "walker.yaml" = Err err)
  (Hmissing : Contains err "no such file or directory" = true) :
  init sys = (set_sequences [] [] [] [] [] SetDefaultConfig, None).
Proof.
  unfold init, readConfig. rewrite Hread.
  by rewrite Contains_append.
Qed.

(** X21. The default configuration passes [assertConfigInvariants], given
    that [time.ParseDuration] reads the five default durations, "1s" not
    above "5m", and that an empty pattern list compiles. *)
Theorem default_configuration_is_valid (d5m d1s : Duration)
  (Hhttp : parses sys "30s") (Hcassandra : parses sys "2s")
  (Hrefresh : parses sys "0s")
  (Hdefault : time_ParseDuration sys "1s" = Ok d1s)
  (Hmax : time_ParseDuration sys "5m" = Ok d5m)
  (Hle : d1s <= d5m)
  (Hregex : forall source, aggregateRegex sys [] source = None) :
  assertConfigInvariants sys SetDefaultConfig = None /\
  load_invariants sys SetDefaultConfig.
Proof.
  assert (checks_pass sys SetDefaultConfig) as Hpass.
  { constructor; [by vm_compute|by vm_compute|].
    cbn [SetDefaultConfig Dispatcher Cassandra MaxLinksPerSegment
         NumConcurrentDomains HttpTimeout Timeout ExcludeLinkPatterns
         IncludeLinkPatterns MinLinkRefreshTime DefaultCrawlDelay
         MaxCrawlDelay].
    unfold parses in *. rewrite Hdefault, Hmax, !Hregex. simpl.
    repeat split; try done. }
  split; [by apply assertConfigInvariants_nil|].
  apply checks_pass_iff_load_invariants; [by vm_compute|done].
Qed.

(** X22. [MustReadConfigFile] panics exactly when [readConfig] does not
    return nil, and so on a missing file too, which [init] lets pass: it
    panics with the message that names the file. *)
Theorem MustReadConfigFile_panics_on_any_error (path : string) :
  ((MustReadConfigFile sys path).2 = None <->
   (readConfig sys path).2 = Returns None) /\
  (forall err, ioutil_ReadFile sys path = Err err ->
     (MustReadConfigFile sys path).2
     = Some ("Failed to read config file (" +:+ path +:+ "): " +:+ err)).
Proof.
  unfold MustReadConfigFile, ReadConfigFile. split.
  - destruct (readConfig sys path) as [Config [[err|]|msg]]; cbn;
      split; congruence.
  - intros err Hread. unfold readConfig. by rewrite Hread.
Qed.

End Init.

Section Instances.

Import ConfigExample.

Lemma unreadable_file_leaves_sequences_empty_witness :
  let Config := (readConfig sys "absent.yaml").1 in
  (readConfig sys "absent.yaml").2
  = Returns (Some ("Failed to read config file (absent.yaml): "
                   +:+ "open absent.yaml: no such file or directory")) /\
  AcceptFormats Config = [] /\ AcceptProtocols Config = [] /\
  IgnoreTags Config = [] /\ Hosts (Cassandra Config) = [] /\
  PurgeSidList Config = [] /\
  Dispatcher Config = Dispatcher SetDefaultConfig /\
  DefaultCrawlDelay Config = "1s" /\ MaxCrawlDelay Config = "5m".
Proof.
  apply (unreadable_file_leaves_sequences_empty sys "absent.yaml"
           "open absent.yaml: no such file or directory").
  reflexivity.
Defined.

Lemma loaded_sequences_are_never_empty_witness :
  let unmarshalled :=
    with_DefaultCrawlDelay "2s"
      (set_sequences [] [] [] [] [] SetDefaultConfig) in
  let Config := (readConfig sys "quick.yaml").1 in
  AcceptFormats Config <> [] /\ AcceptProtocols Config <> [] /\
  IgnoreTags Config <> [] /\ Hosts (Cassandra Config) <> [] /\
  PurgeSidList Config <> [] /\
  (IgnoreTags unmarshalled = [] ->
   IgnoreTags Config = ["script"; "img"; "link"]) /\
  (IgnoreTags unmarshalled <> [] ->
   IgnoreTags Config = IgnoreTags unmarshalled).
Proof.
  apply (loaded_sequences_are_never_empty sys "quick.yaml"
           "default_crawl_delay: 2s"
           (with_DefaultCrawlDelay "2s"
              (set_sequences [] [] [] [] [] SetDefaultConfig)));
    reflexivity.
Defined.

Lemma init_tolerates_a_missing_file_witness :
  init sys = (set_sequences [] [] [] [] [] SetDefaultConfig, None).
Proof.
  apply (init_tolerates_a_missing_file sys
           "open walker.yaml: no such file or directory"); reflexivity.
Defined.

Lemma default_configuration_is_valid_witness :
  assertConfigInvariants sys SetDefaultConfig = None /\
  load_invariants sys SetDefaultConfig.
Proof.
  apply (default_configuration_is_valid sys (5 * Minute) Second);
    first [reflexivity | vm_compute; discriminate].
Defined.

End Instances.

End ConfigInitFacts.

(** ** Properties of package [walker], file mocks.go *)

Module MocksFacts.
Import Mocks.

Section Handler.

Variable url_String : Walker.url_URL -> string.
Variable strconv_Quote : string -> string.

Lemma fresh_lookup {A} (k : string) :
  (<["DELETE" := ∅]> (<["GET" := ∅]> (<["HEAD" := ∅]> (<["OPTIONS" := ∅]>
   (<["POST" := ∅]> (<["PUT" := ∅]> (<["TRACE" := ∅]>
   (∅ : gmap string (gmap string A)))))))))
    !! k
  = if bool_decide (k ∈ methods) then Some ∅ else None.
Proof.
  unfold methods.
  repeat (rewrite lookup_insert; case_decide;
          [subst; symmetry; rewrite bool_decide_eq_true_2; [done|];
           rewrite !elem_of_cons; tauto|]).
  rewrite lookup_empty. symmetry.
  rewrite bool_decide_eq_false_2; [done|].
  rewrite !elem_of_cons, elem_of_nil. intros Hor.
  repeat (destruct Hor as [Hor|Hor]; [by subst|]). done.
Qed.

Lemma copy_headers (h : Header) : (fun list => [] ++ list) <$> h = h.
Proof. apply map_fmap_id. Qed.

(** X23. A fresh handler takes responses for DELETE, GET, HEAD, OPTIONS,
    POST, PUT and TRACE, and for the empty method, which stands for GET;
    [SetResponse] with any other method panics. *)
Theorem SetResponse_panics_on_other_methods (link : string) (r : MockResponse) :
  (Method r = "" ->
   SetResponse link r NewMockHTTPHandler
   = Done (mkMockHTTPHandler
             (<["GET" := {[ link := set_Method "GET" r ]}]>
                (returns NewMockHTTPHandler))
             (headers NewMockHTTPHandler))) /\
  (Method r ∈ methods ->
   SetResponse link r NewMockHTTPHandler
   = Done (mkMockHTTPHandler
             (<[Method r := {[ link := r ]}]> (returns NewMockHTTPHandler))
             (headers NewMockHTTPHandler))) /\
  (Method r <> "" -> Method r ∉ methods ->
   SetResponse link r NewMockHTTPHandler
   = Panicked "assignment to entry in nil map").
Proof.
  unfold SetResponse. split; [|split].
  - intros ->. reflexivity.
  - intros Hin.
    assert (String.eqb (Method r) "" = false) as ->.
    { apply String.eqb_neq. intros Heq. rewrite Heq in Hin.
      revert Hin. unfold methods. rewrite !elem_of_cons, elem_of_nil.
      intros Hor. repeat (destruct Hor as [Hor|Hor]; [done|]). done. }
    unfold NewMockHTTPHandler at 1. cbn [returns].
    by rewrite fresh_lookup, bool_decide_eq_true_2.
  - intros Hne Hout. apply String.eqb_neq in Hne. rewrite Hne.
    unfold NewMockHTTPHandler. cbn [returns].
    by rewrite fresh_lookup, bool_decide_eq_false_2.
Qed.

(** X24. A response set with [SetResponse] is what [ServeHTTP] answers a
    request for its link and method with: the status, 200 when it was left
    0; the content type, text/html when it was left empty; a
    Content-Length header only when [ContentLength] is not 0; and the
    body. *)
Theorem ServeHTTP_answers_the_response_set
  (s : MockHTTPHandler) (m : gmap string MockResponse)
  (link : string) (r : MockResponse) (w : ResponseWriter) (req : ServerRequest)
  (Hmethod : req_Method req = (if String.eqb (Method r) "" then "GET"
                               else Method r))
  (Hknown : returns s !! req_Method req = Some m)
  (Hlink : link_of url_String req = link)
  (Hwriter : w_broken w = None) :
  exists s1 s2 w',
    SetResponse link r s = Done s1 /\
    ServeHTTP url_String w req s1 = Done (s2, w') /\
    w_Status w' = Some (if Status r =? 0 then 200 else Status r) /\
    w_Header w' !! "Content-Type"
    = Some [if String.eqb (ContentType r) "" then "text/html"
            else ContentType r] /\
    w_Header w' !! "Content-Length"
    = (if ContentLength r =? 0 then w_Header w !! "Content-Length"
       else Some [pretty (ContentLength r)]) /\
    w_Body w' = w_Body w +:+ Body r.
Proof.
  set (r' := if String.eqb (Method r) "" then set_Method "GET" r else r).
  assert (Method r' = req_Method req) as Hm.
  { subst r'. rewrite Hmethod. by destruct (String.eqb (Method r) ""). }
  assert (Status r' = Status r /\ ContentType r' = ContentType r /\
          ContentLength r' = ContentLength r /\ Body r' = Body r)
    as (Hst & Hct & Hcl & Hb).
  { subst r'. by destruct (String.eqb (Method r) ""). }
  assert (SetResponse link r s
          = Done (mkMockHTTPHandler
                    (<[req_Method req := <[link := r']> m]> (returns s))
                    (headers s))) as Hset.
  { unfold SetResponse. fold r'. rewrite Hm, Hknown. reflexivity. }
  rewrite Hset.
  exists (mkMockHTTPHandler
            (<[req_Method req := <[link := r']> m]> (returns s)) (headers s)).
  unfold ServeHTTP, storeHeader. cbn [returns headers].
  rewrite lookup_insert_eq, Hlink, lookup_insert_eq.
  clearbody r'. destruct r' as [st me bo he ct cl].
  cbn [Status ContentType ContentLength Body] in Hst, Hct, Hcl, Hb.
  rewrite <- Hst, <- Hct, <- Hcl, <- Hb. clear Hset.
  cbn [Status ContentType ContentLength Body set_Status set_ContentType].
  destruct (headers s !! req_Method req); cbn [fst returns headers];
    rewrite Hwriter;
    destruct (st =? 0); cbn [Status ContentType ContentLength Body
                             set_Status set_ContentType];
    destruct (String.eqb ct ""); cbn [Status ContentType ContentLength Body
                                      set_Status set_ContentType];
    destruct (cl =? 0); cbn [negb];
    eexists _, _; (split; [reflexivity|]); repeat split; simpl;
    rewrite ?lookup_insert_ne by done; by rewrite ?lookup_insert_eq.
Qed.

(** X25. [ServeHTTP] on a link no response is set for writes nothing, so
    that the server answers an empty 200; the request is recorded all the
    same. *)
Theorem ServeHTTP_without_a_response_writes_nothing
  (s : MockHTTPHandler) (m : gmap string MockResponse)
  (hm : gmap string (list Header)) (w : ResponseWriter) (req : ServerRequest)
  (Hknown : returns s !! req_Method req = Some m)
  (Hheaders : headers s !! req_Method req = Some hm)
  (Hunset : m !! link_of url_String req = None) :
  exists s',
    ServeHTTP url_String w req s = Done (s', w) /\
    returns s' = returns s /\
    Requested (req_Method req) (link_of url_String req) s' = true.
Proof.
  eexists. unfold ServeHTTP, storeHeader. rewrite Hknown, Hheaders, Hunset.
  split; [reflexivity|]. split; [reflexivity|].
  unfold Requested. cbn [fst headers]. rewrite !lookup_insert_eq.
  rewrite length_app. simpl. apply negb_true_iff, Nat.eqb_neq. lia.
Qed.

(** X26. [storeHeader] appends a copy of the headers under the method and
    the link: [Headers] then returns them at any negative depth and at the
    depth of their rank, still returns the older ones at theirs, and
    returns an error at any depth beyond. *)
Theorem Headers_returns_what_storeHeader_stored
  (s : MockHTTPHandler) (hm : gmap string (list Header))
  (method link : string) (h : Header)
  (Hheaders : headers s !! method = Some hm) :
  let older := default [] (hm !! link) in
  let s' := (storeHeader method link h s).1 in
  (storeHeader method link h s).2 = None /\
  Requested method link s' = true /\
  (forall depth, depth < 0 ->
     MockRemoteServer_Headers strconv_Quote method link depth s'
     = Done (Ok h)) /\
  MockRemoteServer_Headers strconv_Quote method link
    (Z.of_nat (length older)) s' = Done (Ok h) /\
  (forall i h0, older !! i = Some h0 ->
     MockRemoteServer_Headers strconv_Quote method link (Z.of_nat i) s'
     = Done (Ok h0)) /\
  (forall depth, Z.of_nat (length older) < depth ->
     exists msg,
       MockRemoteServer_Headers strconv_Quote method link depth s'
       = Done (Err msg)).
Proof.
  intros older s'. subst s'. unfold storeHeader. rewrite Hheaders, copy_headers.
  fold older. split; [done|]. cbn [fst].
  unfold Requested, MockRemoteServer_Headers. cbn [headers].
  rewrite !lookup_insert_eq, length_app. cbn [length].
  split; [apply negb_true_iff, Nat.eqb_neq; lia|].
  split; [|split; [|split]].
  - intros depth Hneg.
    rewrite (proj2 (Z.leb_gt _ _)) by lia.
    rewrite (proj2 (Z.ltb_lt _ _)) by lia.
    replace (length older + 1 - 1)%nat with (length older + 0)%nat by lia.
    by rewrite lookup_app_r, Nat.add_0_r, Nat.sub_diag by lia.
  - rewrite (proj2 (Z.leb_gt _ _)) by lia.
    rewrite (proj2 (Z.ltb_ge _ _)) by lia.
    rewrite Nat2Z.id.
    by rewrite lookup_app_r, Nat.sub_diag by lia.
  - intros i h0 Hi. pose proof (lookup_lt_Some _ _ _ Hi).
    rewrite (proj2 (Z.leb_gt _ _)) by lia.
    rewrite (proj2 (Z.ltb_ge _ _)) by lia.
    rewrite Nat2Z.id. by rewrite lookup_app_l, Hi by lia.
  - intros depth Hbeyond.
    rewrite (proj2 (Z.leb_le _ _)) by lia. by eexists.
Qed.

(** X27. Nothing has been requested from a fresh handler: [Requested] is
    false and [Headers] returns an error, for every method, link and
    depth. *)
Theorem fresh_handler_has_no_request (method url : string) (depth : Z) :
  Requested method url NewMockHTTPHandler = false /\
  exists msg,
    MockRemoteServer_Headers strconv_Quote method url depth NewMockHTTPHandler
    = Done (Err msg).
Proof.
  unfold Requested, MockRemoteServer_Headers, NewMockHTTPHandler.
  cbn [headers]. rewrite fresh_lookup.
  case_bool_decide; rewrite ?lookup_empty; split; by eauto.
Qed.

End Handler.

Section Handle.

(** X28. The mock handler reads the body it is given and puts a reader
    over the same bytes in its place: a page the fetcher has buffered is
    passed on to [Mock.Called] as it came in, and so is stored as it was
    handled.  A result without a response makes [HandleResponse] panic. *)
Theorem HandleResponse_keeps_a_buffered_page
  (link : Walker.URL) (fetched : Time) (resp : Walker.Response)
  (body : list byte) :
  HandleResponse (Walker.buffered link fetched resp body)
  = Done (Walker.buffered link fetched resp body) /\
  HandleResponse (Walker.mkFetchResults link None None fetched false)
  = Panicked "invalid memory address or nil pointer dereference".
Proof. split; reflexivity. Qed.

End Handle.

Section Instances.

Import MocksExample.

Lemma ServeHTTP_answers_the_response_set_witness :
  exists s1 s2 w',
    SetResponse "http://test.com/" page NewMockHTTPHandler = Done s1 /\
    ServeHTTP Example.url_String writer (request "GET" "Walker") s1
    = Done (s2, w') /\
    w_Status w' = Some 200 /\
    w_Header w' !! "Content-Type" = Some ["text/html"] /\
    w_Header w' !! "Content-Length" = None /\
    w_Body w' = "<a href=/next>next</a>".
Proof.
  apply (ServeHTTP_answers_the_response_set Example.url_String
           NewMockHTTPHandler ∅ "http://test.com/" page writer
           (request "GET" "Walker")); reflexivity.
Defined.

Lemma ServeHTTP_without_a_response_writes_nothing_witness :
  exists s',
    ServeHTTP Example.url_String writer (request "GET" "Walker")
              NewMockHTTPHandler
    = Done (s', writer) /\
    returns s' = returns NewMockHTTPHandler /\
    Requested "GET" "http://test.com/" s' = true.
Proof.
  apply (ServeHTTP_without_a_response_writes_nothing Example.url_String
           NewMockHTTPHandler ∅ ∅ writer (request "GET" "Walker"));
    reflexivity.
Defined.

Lemma Headers_returns_what_storeHeader_stored_witness :
  let older := [agent "first"] in
  let s' := (storeHeader "GET" "http://test.com/" (agent "second") visited).1 in
  (storeHeader "GET" "http://test.com/" (agent "second") visited).2 = None /\
  Requested "GET" "http://test.com/" s' = true /\
  (forall depth, depth < 0 ->
     MockRemoteServer_Headers strconv_Quote "GET" "http://test.com/" depth s'
     = Done (Ok (agent "second"))) /\
  MockRemoteServer_Headers strconv_Quote "GET" "http://test.com/" 1 s'
  = Done (Ok (agent "second")) /\
  (forall i h0, older !! i = Some h0 ->
     MockRemoteServer_Headers strconv_Quote "GET" "http://test.com/"
       (Z.of_nat i) s'
     = Done (Ok h0)) /\
  (forall depth, 1 < depth ->
     exists msg,
       MockRemoteServer_Headers strconv_Quote "GET" "http://test.com/" depth s'
       = Done (Err msg)).
Proof.
  exact (Headers_returns_what_storeHeader_stored strconv_Quote visited
           {[ "http://test.com/" := [agent "first"] ]}
           "GET" "http://test.com/" (agent "second") eq_refl).
Defined.

End Instances.

End MocksFacts.
